(** * OSC99: packets, the contents classifier and recursive deconstruction

    A shallow embedding of [OscCommon.c] and [OscPacket.c].

    - C integers: [size_t] values are [nat] (the only arithmetic on them is
      the [size++] of the copy loop, which stays below [sourceSize]); the
      [int32] size of a bundle element is a [Z], converted to [size_t] with
      its wrap-around written out ([size_t_of_int32]).
    - Memory: a pointer to OSC contents is the list of bytes addressable from
      it.  Reading past the end of that list, and calling through a null
      function pointer, are undefined behaviour: the embedding makes them an
      explicit outcome ([Undefined]) instead of giving them a value.  A span
      handed to a call is the bytes as they were when the call was made;
      this is what reading through the pointer gives as long as the callback
      does not write to the packet while it is being processed.
    - The functions of [OscMessage.c] and [OscBundle.c] that the packet code
      calls are the fields of the class [OscLibrary]; the application that
      supplies the [processMessage] callback is the class [Application]. *)

From Stdlib Require Import ZArith Lia.
From Stdlib Require Import Strings.Byte.
From stdpp Require Import base decidable list option.
From Equations Require Import Equations.

Local Open Scope nat_scope.
#[local] Set Warnings "-register-all".

(** ** Error codes *)

(** Modelled from the spec: the [OscError] enumeration of [OscError.h], which
    is not among the sources.  The enumerators that [OscPacket.c] names keep
    their names; every other enumerator (the codes that only the message and
    bundle functions produce) is [OscErrorOther] with its number. *)
Inductive OscError : Type :=
| OscErrorNone
| OscErrorInvalidContents
| OscErrorPacketSizeTooLarge
| OscErrorContentsEmpty
| OscErrorCallbackFunctionUndefined
| OscErrorOther (code : nat).

#[global] Instance OscError_eq_dec : EqDecision OscError.
Proof. solve_decision. Defined.

(** ** Undefined behaviour and the result of a C call *)

Inductive UB : Type :=
| NullCall      (* call through a null function pointer *)
| OutOfBounds.  (* read or write outside the addressable bytes *)

Inductive exec (A : Type) : Type :=
| Ok (a : A)
| Undefined (u : UB).
Arguments Ok {A} a.
Arguments Undefined {A} u.

#[global] Instance exec_bind : MBind exec := fun A B (k : A -> exec B) (m : exec A) =>
  match m with
  | Ok a => k a
  | Undefined u => Undefined u
  end.

(** ** OscCommon.c: the classifier *)

(** [const void * oscContents]: the bytes addressable from the pointer. *)
Definition OscContents := list byte.

(** Dereferencing the pointer as a [char] pointer: the first addressable byte. *)
Definition deref (oscContents : OscContents) : exec byte :=
  match oscContents with
  | [] => Undefined OutOfBounds
  | c :: _ => Ok c
  end.

(** Returns whether the dereferenced [char] equals ['/']. *)
Definition OscContentsIsMessage (oscContents : OscContents) : exec bool :=
  c ← deref oscContents; Ok (Byte.eqb c "/"%byte).

(** Returns whether the dereferenced [char] equals ['#']. *)
Definition OscContentsIsBundle (oscContents : OscContents) : exec bool :=
  c ← deref oscContents; Ok (Byte.eqb c "#"%byte).

(** Modelled from the spec: the macros [OSC_CONTENTS_IS_MESSAGE] and
    [OSC_CONTENTS_IS_BUNDLE] of [OscCommon.h], which is not among the
    sources.  The spec's classifier is the first-byte test, which is what the
    two functions of [OscCommon.c] compute. *)
Definition OSC_CONTENTS_IS_MESSAGE := OscContentsIsMessage.
Definition OSC_CONTENTS_IS_BUNDLE := OscContentsIsBundle.

(** ** The message and bundle functions used by OscPacket.c *)

(** Modelled from the spec: [OscBundleElement] of [OscBundle.h], a transient
    view made of a contents span and its [int32] size. *)
Record OscBundleElement : Type := mkOscBundleElement {
  elementContents : OscContents;
  elementSize : Z
}.

Class OscLibrary : Type := {
  (** [#define MAX_OSC_PACKET_SIZE], the capacity of a packet's buffer *)
  MAX_OSC_PACKET_SIZE : nat;
  (** the width of [size_t] on the target *)
  size_t_bits : Z;
  OscTimeTag : Type;
  OscMessage : Type;
  OscBundle : Type;
  (** the field [oscBundle.oscTimeTag] *)
  oscTimeTag : OscBundle -> OscTimeTag;
  (** [OscMessageInitialiseFromCharArray(&oscMessage, source, numberOfBytes)]:
      the error code and the message written through the first argument *)
  OscMessageInitialiseFromCharArray : OscContents -> nat -> OscError * OscMessage;
  (** [OscBundleInitialiseFromCharArray(&oscBundle, source, numberOfBytes)] *)
  OscBundleInitialiseFromCharArray : OscContents -> nat -> OscError * OscBundle;
  (** [OscBundleIsBundleElementAvailable(&oscBundle)] *)
  OscBundleIsBundleElementAvailable : OscBundle -> bool;
  (** [OscBundleGetBundleElement(&oscBundle, &oscBundleElement)]: the error
      code, the element written through the second argument and the bundle
      as the call leaves it *)
  OscBundleGetBundleElement : OscBundle -> OscError * OscBundleElement * OscBundle;
  (** [OscMessageToCharArray(oscMessage, &size, destination, destinationSize)]:
      from the message structure, the current [size] and [destination] and
      the capacity, the error code with the new [size] and [destination] *)
  OscMessageToCharArray : OscContents -> nat -> list byte -> nat -> OscError * nat * list byte;
  (** [OscBundleToCharArray(oscBundle, &size, destination, destinationSize)] *)
  OscBundleToCharArray : OscContents -> nat -> list byte -> nat -> OscError * nat * list byte
}.

(** [(size_t) oscBundleElement.size.int32] *)
Definition size_t_of_int32 `{OscLibrary} (i : Z) : nat :=
  Z.to_nat (i mod 2 ^ size_t_bits).

(** ** OscPacket.c: the packet *)

(** A function pointer is the address of the function. *)
Definition FunPtr := nat.

(** Modelled from the spec: [OscPacket] of [OscPacket.h]: the buffer
    [contents] (an array of [MAX_OSC_PACKET_SIZE] bytes), its length [size]
    and the callback [processMessage], [None] for [NULL]. *)
Record OscPacket : Type := mkOscPacket {
  contents : list byte;
  size : nat;
  processMessage : option FunPtr
}.

(** [oscPacket->size = 0; oscPacket->processMessage = NULL;] *)
Definition OscPacketInitialise (oscPacket : OscPacket) : OscPacket :=
  let oscPacket := mkOscPacket (contents oscPacket) 0 (processMessage oscPacket) in
  mkOscPacket (contents oscPacket) (size oscPacket) None.

(** [oscPacket.processMessage = f;]: the assignment by which the application
    attaches its callback after initialisation, as in the example that
    documents [OscPacketProcessMessages]. *)
Definition attach (f : FunPtr) (oscPacket : OscPacket) : OscPacket :=
  mkOscPacket (contents oscPacket) (size oscPacket) (Some f).

Section Packet.
Context `{Lib : OscLibrary}.

(** [oscContents] points to an [OscMessage] or [OscBundle] structure, whose
    first byte says which. *)
Definition OscPacketInitialiseFromContents (oscPacket : OscPacket) (oscContents : OscContents)
  : exec (OscError * OscPacket) :=
  (* oscPacket->processMessage = NULL; *)
  let oscPacket := mkOscPacket (contents oscPacket) (size oscPacket) None in
  isMessage ← OSC_CONTENTS_IS_MESSAGE oscContents;
  if isMessage : bool then
    let '(oscError, newSize, newContents) :=
      OscMessageToCharArray oscContents (size oscPacket) (contents oscPacket) MAX_OSC_PACKET_SIZE in
    Ok (oscError, mkOscPacket newContents newSize (processMessage oscPacket))
  else
  isBundle ← OSC_CONTENTS_IS_BUNDLE oscContents;
  if isBundle : bool then
    let '(oscError, newSize, newContents) :=
      OscBundleToCharArray oscContents (size oscPacket) (contents oscPacket) MAX_OSC_PACKET_SIZE in
    Ok (oscError, mkOscPacket newContents newSize (processMessage oscPacket))
  else
  Ok (OscErrorInvalidContents, oscPacket).

(** The [while] loop of [OscPacketInitialiseFromCharArray]:
    [while (size < sourceSize) { contents[size] = source[size]; size++; }] *)
Equations copy_loop (source : list byte) (sourceSize : nat) (oscPacket : OscPacket)
  : exec OscPacket by wf (sourceSize - size oscPacket) lt :=
copy_loop source sourceSize oscPacket with decide (size oscPacket < sourceSize) := {
  | right _ => Ok oscPacket
  | left _ with source !! size oscPacket := {
    | None => Undefined OutOfBounds
    | Some c with decide (size oscPacket < length (contents oscPacket)) := {
      | right _ => Undefined OutOfBounds
      | left _ =>
          copy_loop source sourceSize
            (mkOscPacket (<[size oscPacket := c]> (contents oscPacket))
                         (S (size oscPacket))
                         (processMessage oscPacket)) } } }.
Next Obligation. simpl. lia. Qed.

Definition OscPacketInitialiseFromCharArray
    (oscPacket : OscPacket) (source : list byte) (sourceSize : nat)
  : exec (OscError * OscPacket) :=
  (* oscPacket->size = 0; *)
  let oscPacket := mkOscPacket (contents oscPacket) 0 (processMessage oscPacket) in
  (* if (sourceSize > MAX_OSC_PACKET_SIZE) *)
  if decide (MAX_OSC_PACKET_SIZE < sourceSize) then
    Ok (OscErrorPacketSizeTooLarge, oscPacket)
  else
  oscPacket ← copy_loop source sourceSize oscPacket;
  (* oscPacket->processMessage = NULL; *)
  let oscPacket := mkOscPacket (contents oscPacket) (size oscPacket) None in
  Ok (OscErrorNone, oscPacket).

End Packet.

(** ** The application and its callback *)

(** What a callback can reach: the packet being processed and the
    application's own state. *)
Record World (S : Type) : Type := mkWorld {
  packet : OscPacket;
  app : S
}.
Arguments mkWorld {S} packet app.
Arguments packet {S} w.
Arguments app {S} w.

(** The application: its state and the code behind each function pointer,
    called as [processMessage(oscTimeTag, &oscMessage)] with [None] for a
    [NULL] time tag. *)
Class Application `{OscLibrary} : Type := {
  AppState : Type;
  invoke : FunPtr -> option OscTimeTag -> OscMessage -> World AppState -> World AppState
}.

(** ** OscPacket.c: processing *)

Section Deconstruct.
Context `{Lib : OscLibrary} `{App : !Application}.

(** The result of a call of [DeconstructContents]: [None] when the fuel ran
    out, otherwise the error code returned and the world it leaves, or the
    undefined behaviour it ran into. *)
Definition Deconstructed : Type := option (exec (OscError * World AppState)).

(** [oscPacket->processMessage(oscTimeTag, &oscMessage);] *)
Definition call_processMessage (oscTimeTag : option OscTimeTag) (oscMessage : OscMessage)
    (w : World AppState) : exec (World AppState) :=
  match processMessage (packet w) with
  | None => Undefined NullCall
  | Some f => Ok (invoke f oscTimeTag oscMessage w)
  end.

Section BundleLoop.
(** the recursive call of [DeconstructContents] *)
Variable recurse : option OscTimeTag -> OscContents -> nat -> World AppState -> Deconstructed.

(** The [do { ... } while (true);] loop over the elements of a bundle. *)
Fixpoint bundle_loop (fuel : nat) (oscBundle : OscBundle) (w : World AppState)
  : Deconstructed :=
  match fuel with
  | O => None
  | S fuel =>
    if negb (OscBundleIsBundleElementAvailable oscBundle) then
      Some (Ok (OscErrorNone, w))   (* break; return OscErrorNone; *)
    else
    let '(oscError, oscBundleElement, oscBundle) := OscBundleGetBundleElement oscBundle in
    if decide (oscError ≠ OscErrorNone) then Some (Ok (oscError, w)) else
    match recurse (Some (oscTimeTag oscBundle))
                  (elementContents oscBundleElement)
                  (size_t_of_int32 (elementSize oscBundleElement)) w with
    | None => None
    | Some (Undefined u) => Some (Undefined u)
    | Some (Ok (oscError, w)) =>
      if decide (oscError ≠ OscErrorNone) then Some (Ok (oscError, w)) else
      bundle_loop fuel oscBundle w
    end
  end.
End BundleLoop.

(** [DeconstructContents(oscPacket, oscTimeTag, oscContents, contentsSize)],
    the packet being the one of the world and [None] standing for a [NULL]
    time tag.  The fuel bounds the depth of the recursion and the number of
    iterations of each bundle loop. *)
Fixpoint DeconstructContents (fuel : nat) (oscTimeTag : option OscTimeTag)
    (oscContents : OscContents) (contentsSize : nat) (w : World AppState)
  : Deconstructed :=
  match fuel with
  | O => None
  | S fuel =>
    if decide (contentsSize = 0) then Some (Ok (OscErrorContentsEmpty, w)) else
    match OSC_CONTENTS_IS_MESSAGE oscContents with
    | Undefined u => Some (Undefined u)
    | Ok true =>
      (* Contents is an OSC message *)
      let '(oscError, oscMessage) :=
        OscMessageInitialiseFromCharArray oscContents contentsSize in
      if decide (oscError ≠ OscErrorNone) then Some (Ok (oscError, w)) else
      Some (w ← call_processMessage oscTimeTag oscMessage w; Ok (OscErrorNone, w))
    | Ok false =>
      match OSC_CONTENTS_IS_BUNDLE oscContents with
      | Undefined u => Some (Undefined u)
      | Ok true =>
        (* Contents is an OSC bundle *)
        let '(oscError, oscBundle) :=
          OscBundleInitialiseFromCharArray oscContents contentsSize in
        if decide (oscError ≠ OscErrorNone) then Some (Ok (oscError, w)) else
        bundle_loop (DeconstructContents fuel) fuel oscBundle w
      | Ok false => Some (Ok (OscErrorInvalidContents, w))
      end
    end
  end.

(** [OscPacketProcessMessages(&oscPacket)], the packet being the one of the
    world. *)
Definition OscPacketProcessMessages (fuel : nat) (w : World AppState) : Deconstructed :=
  let oscPacket := packet w in
  match processMessage oscPacket with
  | None => Some (Ok (OscErrorCallbackFunctionUndefined, w))
  | Some _ =>
    DeconstructContents fuel None (contents oscPacket) (size oscPacket) w
  end.

(** ** The tree of a packet and its walk, after the specification *)

(** What the contents of a packet amount to: a message, a span that cannot
    be deconstructed (with the error that says why), or a bundle with its
    time tag and its elements in order. *)
Inductive Tree : Type :=
| Message (oscMessage : OscMessage)
| Malformed (oscError : OscError)
| Bundle (timeTag : OscTimeTag) (elements : list Tree).

(** [contents_tree c n t]: the span [c] of size [n] is the tree [t], as the
    classifier and the message and bundle functions read it.  A bundle whose
    cursor fails to yield its next element ends with that failure. *)
Inductive contents_tree : OscContents -> nat -> Tree -> Prop :=
| tree_empty c :
    contents_tree c 0 (Malformed OscErrorContentsEmpty)
| tree_message c n m :
    n ≠ 0 ->
    OSC_CONTENTS_IS_MESSAGE c = Ok true ->
    OscMessageInitialiseFromCharArray c n = (OscErrorNone, m) ->
    contents_tree c n (Message m)
| tree_message_error c n e m :
    n ≠ 0 ->
    OSC_CONTENTS_IS_MESSAGE c = Ok true ->
    OscMessageInitialiseFromCharArray c n = (e, m) ->
    e ≠ OscErrorNone ->
    contents_tree c n (Malformed e)
| tree_bundle_error c n e b :
    n ≠ 0 ->
    OSC_CONTENTS_IS_MESSAGE c = Ok false ->
    OSC_CONTENTS_IS_BUNDLE c = Ok true ->
    OscBundleInitialiseFromCharArray c n = (e, b) ->
    e ≠ OscErrorNone ->
    contents_tree c n (Malformed e)
| tree_bundle c n b ts :
    n ≠ 0 ->
    OSC_CONTENTS_IS_MESSAGE c = Ok false ->
    OSC_CONTENTS_IS_BUNDLE c = Ok true ->
    OscBundleInitialiseFromCharArray c n = (OscErrorNone, b) ->
    elements_trees (oscTimeTag b) b ts ->
    contents_tree c n (Bundle (oscTimeTag b) ts)
| tree_invalid c n :
    n ≠ 0 ->
    OSC_CONTENTS_IS_MESSAGE c = Ok false ->
    OSC_CONTENTS_IS_BUNDLE c = Ok false ->
    contents_tree c n (Malformed OscErrorInvalidContents)
with elements_trees : OscTimeTag -> OscBundle -> list Tree -> Prop :=
| elements_end tag b :
    OscBundleIsBundleElementAvailable b = false ->
    elements_trees tag b []
| elements_error tag b e el b' :
    OscBundleIsBundleElementAvailable b = true ->
    OscBundleGetBundleElement b = (e, el, b') ->
    e ≠ OscErrorNone ->
    elements_trees tag b [Malformed e]
| elements_next tag b el b' t ts :
    OscBundleIsBundleElementAvailable b = true ->
    OscBundleGetBundleElement b = (OscErrorNone, el, b') ->
    oscTimeTag b' = tag ->
    contents_tree (elementContents el) (size_t_of_int32 (elementSize el)) t ->
    elements_trees tag b' ts ->
    elements_trees tag b (t :: ts).

Scheme contents_tree_mut := Minimality for contents_tree Sort Prop
  with elements_trees_mut := Minimality for elements_trees Sort Prop.

(** One step of the depth-first, left-to-right walk: a message met, with the
    time tags of the bundles around it (innermost first), or a failure. *)
Inductive Event : Type :=
| Dispatch (enclosing : list OscTimeTag) (oscMessage : OscMessage)
| Failure (oscError : OscError).

(** The whole walk of a tree, failures included. *)
Fixpoint walk (enclosing : list OscTimeTag) (t : Tree) : list Event :=
  match t with
  | Message m => [Dispatch enclosing m]
  | Malformed e => [Failure e]
  | Bundle tag elements => flat_map (walk (tag :: enclosing)) elements
  end.

(** The messages of a stretch of the walk. *)
Fixpoint messages (evs : list Event) : list (list OscTimeTag * OscMessage) :=
  match evs with
  | [] => []
  | Dispatch enclosing m :: evs => (enclosing, m) :: messages evs
  | Failure _ :: evs => messages evs
  end.

(** The messages met before the first failure of the walk. *)
Fixpoint discovered (evs : list Event) : list (list OscTimeTag * OscMessage) :=
  match evs with
  | Dispatch enclosing m :: evs => (enclosing, m) :: discovered evs
  | _ => []
  end.

(** The first failure of the walk, if there is one. *)
Fixpoint first_failure (evs : list Event) : option OscError :=
  match evs with
  | [] => None
  | Failure e :: _ => Some e
  | Dispatch _ _ :: evs => first_failure evs
  end.

Definition is_failure (ev : Event) : Prop :=
  match ev with
  | Failure _ => True
  | Dispatch _ _ => False
  end.

(** The time tag of the nearest enclosing bundle, absent at the top level. *)
Definition nearest (enclosing : list OscTimeTag) : option OscTimeTag :=
  head enclosing.

(** The callback [f] run once for each message of the list, in order, each
    with the time tag of its nearest enclosing bundle. *)
Definition deliver (f : FunPtr) (calls : list (list OscTimeTag * OscMessage))
    (w : World AppState) : World AppState :=
  fold_left (fun w call => invoke f (nearest (fst call)) (snd call) w) calls w.

(** The error code of a walk: that of its first failure, [OscErrorNone] when
    it has none. *)
Definition verdict (evs : list Event) : OscError :=
  default OscErrorNone (first_failure evs).

(** ** What the packet code expects of its surroundings *)

(** The callback leaves the packet it is invoked from alone, as the library
    asks of it. *)
Definition handler_frame (f : FunPtr) : Prop :=
  forall oscTimeTag oscMessage w, packet (invoke f oscTimeTag oscMessage w) = packet w.

(** Modelled from the spec: what the packet code may expect of the bundle
    functions of [OscBundle.c], which is not among the sources.  They walk a
    span of the buffer: [remaining] counts the bytes a bundle has left to
    hand out.  A bundle initialised from [n] bytes has fewer than [n] left,
    and every element fetched is no larger than what was left and leaves
    less. *)
Record cursor_contract (remaining : OscBundle -> nat) : Prop := {
  bundle_within : forall c n b,
    OscBundleInitialiseFromCharArray c n = (OscErrorNone, b) ->
    remaining b < n;
  element_within : forall b el b',
    OscBundleIsBundleElementAvailable b = true ->
    OscBundleGetBundleElement b = (OscErrorNone, el, b') ->
    size_t_of_int32 (elementSize el) ≤ remaining b /\ remaining b' < remaining b
}.

(** Modelled from the spec: a bundle element is a size and a contents span
    of that size, so every element fetched from a bundle addresses at least
    as many bytes as its size says. *)
Definition elements_addressable : Prop :=
  forall b el b',
    OscBundleIsBundleElementAvailable b = true ->
    OscBundleGetBundleElement b = (OscErrorNone, el, b') ->
    size_t_of_int32 (elementSize el) ≤ length (elementContents el).

End Deconstruct.

(** ** A concrete library and application *)

(** Modelled from the spec: the message and bundle functions ([OscMessage.c]
    and [OscBundle.c] are not among the sources), as an instance of
    [OscLibrary] after the collaborator contracts of the specification and
    the OSC 1.0 framing: a bundle is the 8-byte header, an 8-byte big-endian
    time tag and then its elements, each a 4-byte big-endian size followed
    by that many bytes; sizes are multiples of four.  A decoded message is
    its bytes.  The examples run on this instance. *)
Module Wire.

Fixpoint big_endian (acc : Z) (bs : list byte) : Z :=
  match bs with
  | [] => acc
  | b :: bs => big_endian (acc * 256 + Z.of_N (Byte.to_N b)) bs
  end.

Definition int32_of_bytes (bs : list byte) : Z :=
  let u := big_endian 0 bs in
  if (u <? 2 ^ 31)%Z then u else (u - 2 ^ 32)%Z.

Record Cursor : Type := mkCursor {
  timeTag : Z;
  rest : list byte   (* the elements not yet fetched *)
}.

Definition SizeIsNotMultipleOfFour := OscErrorOther 1.
Definition BundleSizeTooSmall := OscErrorOther 2.
Definition BundleElementNotAvailable := OscErrorOther 3.
Definition NegativeBundleElementSize := OscErrorOther 4.
Definition InvalidElementSize := OscErrorOther 5.

Definition decode_message (source : OscContents) (numberOfBytes : nat)
  : OscError * list byte :=
  if decide (numberOfBytes mod 4 ≠ 0) then (SizeIsNotMultipleOfFour, [])
  else (OscErrorNone, take numberOfBytes source).

Definition decode_bundle (source : OscContents) (numberOfBytes : nat)
  : OscError * Cursor :=
  let bytes := take numberOfBytes source in
  if decide (numberOfBytes mod 4 ≠ 0) then (SizeIsNotMultipleOfFour, mkCursor 0 [])
  else if decide (numberOfBytes < 16) then (BundleSizeTooSmall, mkCursor 0 [])
  else (OscErrorNone, mkCursor (big_endian 0 (take 8 (drop 8 bytes))) (drop 16 bytes)).

Definition element_available (b : Cursor) : bool :=
  bool_decide (4 ≤ length (rest b)).

Definition get_element (b : Cursor) : OscError * OscBundleElement * Cursor :=
  let none := mkOscBundleElement [] 0 in
  if decide (length (rest b) < 4) then (BundleElementNotAvailable, none, b) else
  let n := int32_of_bytes (take 4 (rest b)) in
  if decide (n < 0)%Z then (NegativeBundleElementSize, none, b) else
  if decide (n mod 4 ≠ 0)%Z then (SizeIsNotMultipleOfFour, none, b) else
  if decide (Z.of_nat (length (rest b) - 4) < n)%Z then (InvalidElementSize, none, b) else
  (OscErrorNone,
   mkOscBundleElement (take (Z.to_nat n) (drop 4 (rest b))) n,
   mkCursor (timeTag b) (drop (4 + Z.to_nat n) (rest b))).

(** Serialising a structure: its bytes, when they fit the destination. *)
Definition to_char_array (structure : OscContents) (size : nat)
    (destination : list byte) (destinationSize : nat) : OscError * nat * list byte :=
  if decide (destinationSize < length structure) then
    (OscErrorPacketSizeTooLarge, 0, destination)
  else
    (OscErrorNone, length structure, structure ++ drop (length structure) destination).

#[global] Instance library : OscLibrary := {|
  MAX_OSC_PACKET_SIZE := 64;
  size_t_bits := 32;
  OscTimeTag := Z;
  OscMessage := list byte;
  OscBundle := Cursor;
  oscTimeTag := timeTag;
  OscMessageInitialiseFromCharArray := decode_message;
  OscBundleInitialiseFromCharArray := decode_bundle;
  OscBundleIsBundleElementAvailable := element_available;
  OscBundleGetBundleElement := get_element;
  OscMessageToCharArray := to_char_array;
  OscBundleToCharArray := to_char_array
|}.

(** An application whose callback records each call in its state and leaves
    the packet alone. *)
#[global] Instance recorder : Application := {|
  AppState := list (option Z * list byte);
  invoke := fun _ oscTimeTag oscMessage w =>
    mkWorld (packet w) (app w ++ [(oscTimeTag, oscMessage)])
|}.

Definition header : list byte :=
  ["#"; "b"; "u"; "n"; "d"; "l"; "e"; x00]%byte.
Definition tag (n : byte) : list byte :=
  [x00; x00; x00; x00; x00; x00; x00; n].
Definition length_prefix (n : byte) : list byte := [x00; x00; x00; n].

(** the message [/a] with no arguments, and [/b] *)
Definition message_a : list byte := ["/"; "a"; x00; x00; ","; x00; x00; x00]%byte.
Definition message_b : list byte := ["/"; "b"; x00; x00; ","; x00; x00; x00]%byte.
(** eight bytes that start with neither ['/'] nor ['#'] *)
Definition garbage : list byte := ["x"; "a"; x00; x00; ","; x00; x00; x00]%byte.

(** a bundle with no element *)
Definition empty_bundle : list byte := header ++ tag x07.
(** bundle 1 holding [/a] *)
Definition bundle_A : list byte :=
  header ++ tag x01 ++ length_prefix x08 ++ message_a.
(** bundle 2 holding bundle 1 *)
Definition bundle_B : list byte :=
  header ++ tag x02 ++ length_prefix x1c ++ bundle_A.
(** bundle 3 holding [/a], the garbage and [/b] *)
Definition bundle_three : list byte :=
  header ++ tag x03 ++ length_prefix x08 ++ message_a
         ++ length_prefix x08 ++ garbage
         ++ length_prefix x08 ++ message_b.
(** bundle 4 whose first element has size zero *)
Definition bundle_hole : list byte :=
  header ++ tag x04 ++ length_prefix x00 ++ length_prefix x08 ++ message_a.

(** bundle 5 holding [/a] and [/b] *)
Definition bundle_two : list byte :=
  header ++ tag x05 ++ length_prefix x08 ++ message_a
         ++ length_prefix x08 ++ message_b.

(** An application whose callback detaches itself from the packet, against
    what the library asks of a callback. *)
Definition unhook : Application := {|
  AppState := nat;
  invoke := fun _ _ _ w =>
    mkWorld (mkOscPacket (contents (packet w)) (size (packet w)) None) (S (app w))
|}.

(** A packet holding the given bytes, with the callback at address 1. *)
Definition packet_of (bytes : list byte) : OscPacket :=
  mkOscPacket (bytes ++ replicate (64 - length bytes) x00) (length bytes) (Some 1).

Definition world_of (bytes : list byte) : World AppState :=
  mkWorld (packet_of bytes) [].

End Wire.

(** * Properties *)

(** ** The packet initialisers *)

Section PacketProperties.
Context `{Lib : OscLibrary}.

(** The copy loop, started within bounds, ends with the first [sourceSize]
    bytes of the source in the buffer and the rest of the buffer as it was. *)
Lemma copy_loop_spec (source : list byte) (sourceSize : nat) (oscPacket : OscPacket) :
  size oscPacket ≤ sourceSize ->
  sourceSize ≤ length source ->
  sourceSize ≤ length (contents oscPacket) ->
  copy_loop source sourceSize oscPacket =
    Ok (mkOscPacket
          (take (size oscPacket) (contents oscPacket)
             ++ take (sourceSize - size oscPacket) (drop (size oscPacket) source)
             ++ drop sourceSize (contents oscPacket))
          sourceSize (processMessage oscPacket)).
Proof.
  funelim (copy_loop source sourceSize oscPacket); intros Hle Hsrc Hbuf;
    try match goal with
        | H : _ !! _ = None |- _ => apply lookup_ge_None in H; lia
        end;
    try (exfalso; lia).
  - destruct oscPacket as [buf k f]; simpl in *.
    assert (k = sourceSize) as -> by lia.
    by rewrite Nat.sub_diag, take_0, app_nil_l, take_drop.
  - match goal with IH : _ -> _ -> _ -> copy_loop _ _ _ = _ |- _ =>
      rewrite IH; simpl; [|lia..|by rewrite length_insert] end.
    f_equal. f_equal.
    destruct oscPacket as [buf k f]; simpl in *.
    rewrite take_insert_lt by lia.
    rewrite drop_insert_lt by lia.
    destruct (lookup_lt_is_Some_2 buf k) as [x Hx]; [lia|].
    rewrite (take_S_r buf k x Hx), insert_app_r_alt by (rewrite length_take; lia).
    rewrite length_take, Nat.min_l, Nat.sub_diag by lia. simpl.
    rewrite <- app_assoc. simpl. do 2 f_equal.
    replace (sourceSize - k) with (S (sourceSize - S k)) by lia.
    rewrite (drop_S source c k) by done. done.
Qed.

(** C5. [OscPacketInitialiseFromCharArray], on a packet whose buffer has the
    capacity [MAX_OSC_PACKET_SIZE] and a source that holds [sourceSize]
    bytes: it succeeds exactly when [sourceSize <= MAX_OSC_PACKET_SIZE];
    when it succeeds the packet's size is [sourceSize], the first
    [sourceSize] bytes of the buffer are those of the source, whatever they
    are, and the callback is cleared; when [sourceSize] is larger it returns
    [OscErrorPacketSizeTooLarge] with the size at 0 and the buffer
    untouched. *)
Theorem OscPacketInitialiseFromCharArray_spec
    (oscPacket : OscPacket) (source : list byte) (sourceSize : nat) :
  length (contents oscPacket) = MAX_OSC_PACKET_SIZE ->
  sourceSize ≤ length source ->
  (sourceSize ≤ MAX_OSC_PACKET_SIZE ->
     exists p, OscPacketInitialiseFromCharArray oscPacket source sourceSize
                 = Ok (OscErrorNone, p)
               /\ size p = sourceSize
               /\ take sourceSize (contents p) = take sourceSize source
               /\ processMessage p = None)
  /\ (MAX_OSC_PACKET_SIZE < sourceSize ->
     exists p, OscPacketInitialiseFromCharArray oscPacket source sourceSize
                 = Ok (OscErrorPacketSizeTooLarge, p)
               /\ size p = 0
               /\ contents p = contents oscPacket)
  /\ ((exists p, OscPacketInitialiseFromCharArray oscPacket source sourceSize
                   = Ok (OscErrorNone, p))
      <-> sourceSize ≤ MAX_OSC_PACKET_SIZE).
Proof.
  intros Hcap Hsrc.
  assert (sourceSize ≤ MAX_OSC_PACKET_SIZE ->
     exists p, OscPacketInitialiseFromCharArray oscPacket source sourceSize
                 = Ok (OscErrorNone, p)
               /\ size p = sourceSize
               /\ take sourceSize (contents p) = take sourceSize source
               /\ processMessage p = None) as Hok.
  { intros Hle. unfold OscPacketInitialiseFromCharArray.
    destruct (decide (MAX_OSC_PACKET_SIZE < sourceSize)) as [|_]; [lia|].
    rewrite copy_loop_spec by (simpl; lia). simpl.
    eexists; split; [reflexivity|]. simpl. split_and!; [done| |done].
    rewrite Nat.sub_0_r, drop_0, take_app_le by (rewrite length_take; lia).
    by rewrite take_take, Nat.min_id. }
  split; [exact Hok|]. split.
  - intros Hgt. unfold OscPacketInitialiseFromCharArray.
    destruct (decide (MAX_OSC_PACKET_SIZE < sourceSize)) as [_|]; [|lia].
    eexists; split; [reflexivity|]. done.
  - split.
    + intros [p Hp]. unfold OscPacketInitialiseFromCharArray in Hp.
      destruct (decide (MAX_OSC_PACKET_SIZE < sourceSize)) as [|]; [done|lia].
    + intros Hle. destruct (Hok Hle) as (p & Hp & _). by exists p.
Qed.

(** C10. [OscPacketInitialiseFromContents] clears the callback whatever the
    contents are: for every packet and every contents whose first byte can
    be read the call returns, the callback of the packet it leaves is
    [NULL] whatever the error code, and a first byte that is neither ['/']
    nor ['#'] gives [OscErrorInvalidContents] with buffer and size as they
    were. *)
Theorem OscPacketInitialiseFromContents_clears_callback
    (oscPacket : OscPacket) (c : byte) (oscContents : OscContents) :
  exists e p,
    OscPacketInitialiseFromContents oscPacket (c :: oscContents) = Ok (e, p)
    /\ processMessage p = None
    /\ (c ≠ "/"%byte -> c ≠ "#"%byte ->
        e = OscErrorInvalidContents
        /\ contents p = contents oscPacket /\ size p = size oscPacket).
Proof.
  unfold OscPacketInitialiseFromContents,
    OSC_CONTENTS_IS_MESSAGE, OSC_CONTENTS_IS_BUNDLE,
    OscContentsIsMessage, OscContentsIsBundle. simpl.
  destruct (Byte.eqb c "/") eqn:Hm; simpl.
  - destruct (OscMessageToCharArray _ _ _ _) as [[e n] buf].
    do 2 eexists; split_and!; [reflexivity|done|].
    apply byte_dec_bl in Hm. done.
  - destruct (Byte.eqb c "#") eqn:Hb; simpl.
    + destruct (OscBundleToCharArray _ _ _ _) as [[e n] buf].
      do 2 eexists; split_and!; [reflexivity|done|].
      apply byte_dec_bl in Hb. done.
    + do 2 eexists; split_and!; [reflexivity|done|done].
Qed.

End PacketProperties.

(** ** Deconstruction *)

Section DeconstructProperties.
Context `{Lib : OscLibrary} `{App : !Application}.

Implicit Types (w : World AppState) (t : Tree) (evs : list Event).

Lemma bundle_is_not_message (c : OscContents) :
  OSC_CONTENTS_IS_BUNDLE c = Ok true -> OSC_CONTENTS_IS_MESSAGE c = Ok false.
Proof.
  destruct c as [|x c]; [done|]. cbv [OSC_CONTENTS_IS_BUNDLE OSC_CONTENTS_IS_MESSAGE
    OscContentsIsBundle OscContentsIsMessage deref mbind exec_bind].
  intros [= Hx%byte_dec_bl]. by subst x.
Qed.

Lemma classifier_reads (c : OscContents) (n : nat) :
  n ≠ 0 -> n ≤ length c ->
  exists m b, OSC_CONTENTS_IS_MESSAGE c = Ok m /\ OSC_CONTENTS_IS_BUNDLE c = Ok b.
Proof.
  destruct c as [|x c]; simpl; [lia|]. intros _ _. by do 2 eexists.
Qed.

Lemma classifier_undefined (c : OscContents) (u : UB) :
  OSC_CONTENTS_IS_MESSAGE c = Undefined u \/ OSC_CONTENTS_IS_BUNDLE c = Undefined u ->
  u = OutOfBounds.
Proof. destruct c; intros [H|H]; by inversion H. Qed.

(** The body of [DeconstructContents], one call deep. *)
Lemma DeconstructContents_S fuel tt c n w :
  DeconstructContents (S fuel) tt c n w =
    if decide (n = 0) then Some (Ok (OscErrorContentsEmpty, w)) else
    match OSC_CONTENTS_IS_MESSAGE c with
    | Undefined u => Some (Undefined u)
    | Ok true =>
      let '(oscError, oscMessage) := OscMessageInitialiseFromCharArray c n in
      if decide (oscError ≠ OscErrorNone) then Some (Ok (oscError, w)) else
      Some (w ← call_processMessage tt oscMessage w; Ok (OscErrorNone, w))
    | Ok false =>
      match OSC_CONTENTS_IS_BUNDLE c with
      | Undefined u => Some (Undefined u)
      | Ok true =>
        let '(oscError, oscBundle) := OscBundleInitialiseFromCharArray c n in
        if decide (oscError ≠ OscErrorNone) then Some (Ok (oscError, w)) else
        bundle_loop (DeconstructContents fuel) fuel oscBundle w
      | Ok false => Some (Ok (OscErrorInvalidContents, w))
      end
    end.
Proof. reflexivity. Qed.

Lemma bundle_loop_end recurse fuel b w :
  OscBundleIsBundleElementAvailable b = false ->
  bundle_loop recurse (S fuel) b w = Some (Ok (OscErrorNone, w)).
Proof. intros Hb. simpl. by rewrite Hb. Qed.

Lemma bundle_loop_get_error recurse fuel b w e el b' :
  OscBundleIsBundleElementAvailable b = true ->
  OscBundleGetBundleElement b = (e, el, b') ->
  e ≠ OscErrorNone ->
  bundle_loop recurse (S fuel) b w = Some (Ok (e, w)).
Proof. intros Hb Hg He. simpl. rewrite Hb, Hg. simpl. by rewrite decide_True. Qed.

Lemma bundle_loop_next recurse fuel b w el b' :
  OscBundleIsBundleElementAvailable b = true ->
  OscBundleGetBundleElement b = (OscErrorNone, el, b') ->
  bundle_loop recurse (S fuel) b w =
    match recurse (Some (oscTimeTag b')) (elementContents el)
                  (size_t_of_int32 (elementSize el)) w with
    | None => None
    | Some (Undefined u) => Some (Undefined u)
    | Some (Ok (oscError, w)) =>
      if decide (oscError ≠ OscErrorNone) then Some (Ok (oscError, w)) else
      bundle_loop recurse fuel b' w
    end.
Proof. intros Hb Hg. simpl. rewrite Hb, Hg. reflexivity. Qed.

(** C3. A contents span of size zero makes [DeconstructContents] return
    [OscErrorContentsEmpty] without calling the callback, whatever the
    pointer and the time tag are; and inside a bundle, an element fetched
    with size zero ends the loop with [OscErrorContentsEmpty]: it is not
    skipped. *)
Theorem DeconstructContents_contents_empty fuel tt c w :
  DeconstructContents (S fuel) tt c 0 w = Some (Ok (OscErrorContentsEmpty, w))
  /\ forall n b el b',
       OscBundleIsBundleElementAvailable b = true ->
       OscBundleGetBundleElement b = (OscErrorNone, el, b') ->
       size_t_of_int32 (elementSize el) = 0 ->
       bundle_loop (DeconstructContents (S fuel)) (S n) b w
         = Some (Ok (OscErrorContentsEmpty, w)).
Proof.
  split; [done|]. intros n b el b' Hb Hg Hz.
  rewrite (bundle_loop_next _ _ _ _ _ _ Hb Hg), Hz. done.
Qed.

(** C4. With no callback attached [OscPacketProcessMessages] returns
    [OscErrorCallbackFunctionUndefined] and leaves the world as it was,
    whatever the buffer holds, whatever the message and bundle functions
    are, and with no fuel at all: deconstruction does not begin. *)
Theorem OscPacketProcessMessages_callback_undefined fuel w :
  processMessage (packet w) = None ->
  OscPacketProcessMessages fuel w = Some (Ok (OscErrorCallbackFunctionUndefined, w)).
Proof. intros Hf. unfold OscPacketProcessMessages. by rewrite Hf. Qed.

(** C7. A bundle that initialises and has no element available is
    deconstructed with [OscErrorNone] and the world unchanged (the callback
    is not called), nested or as the contents of a packet; the error is not
    [OscErrorContentsEmpty]. *)
Theorem DeconstructContents_bundle_without_elements fuel tt c n b w :
  n ≠ 0 ->
  OSC_CONTENTS_IS_BUNDLE c = Ok true ->
  OscBundleInitialiseFromCharArray c n = (OscErrorNone, b) ->
  OscBundleIsBundleElementAvailable b = false ->
  DeconstructContents (S (S fuel)) tt c n w = Some (Ok (OscErrorNone, w))
  /\ (contents (packet w) = c -> size (packet w) = n ->
      is_Some (processMessage (packet w)) ->
      OscPacketProcessMessages (S (S fuel)) w = Some (Ok (OscErrorNone, w))).
Proof.
  intros Hn Hc Hi Hb.
  assert (DeconstructContents (S (S fuel)) tt c n w = Some (Ok (OscErrorNone, w))) as H.
  { rewrite DeconstructContents_S, decide_False, (bundle_is_not_message c Hc), Hc, Hi by done.
    simpl. by rewrite Hb. }
  split; [done|]. intros <- <- [f Hf]. unfold OscPacketProcessMessages. rewrite Hf.
  rewrite DeconstructContents_S, decide_False, (bundle_is_not_message _ Hc), Hc, Hi by done.
  simpl. by rewrite Hb.
Qed.

(** *** The walk *)

Lemma first_failure_app evs1 evs2 :
  first_failure (evs1 ++ evs2) =
    match first_failure evs1 with
    | Some e => Some e
    | None => first_failure evs2
    end.
Proof. induction evs1 as [|[p m|e] evs1 IH]; simpl; done. Qed.

Lemma discovered_app evs1 evs2 :
  discovered (evs1 ++ evs2) =
    discovered evs1 ++
    match first_failure evs1 with
    | Some _ => []
    | None => discovered evs2
    end.
Proof.
  induction evs1 as [|[p m|e] evs1 IH]; simpl; [by destruct evs2| |done].
  by rewrite IH.
Qed.

Lemma no_failure_discovered evs :
  Forall (fun ev => ¬ is_failure ev) evs ->
  first_failure evs = None /\ discovered evs = messages evs.
Proof.
  induction 1 as [|[p m|e] evs Hev _ [IH1 IH2]]; simpl; [done| |by destruct Hev].
  by rewrite IH2.
Qed.

Lemma deliver_app f calls1 calls2 w :
  deliver f (calls1 ++ calls2) w = deliver f calls2 (deliver f calls1 w).
Proof. unfold deliver. by rewrite fold_left_app. Qed.

Lemma deliver_packet f calls w :
  handler_frame f -> packet (deliver f calls w) = packet w.
Proof.
  intros Hf. revert w. induction calls as [|call calls IH]; intros w; [done|].
  unfold deliver in *. simpl. by rewrite IH, Hf.
Qed.

(** [DeconstructContents] on a span that is a tree does what the walk of the
    tree says: it returns the error of the first failure of the walk, having
    called the callback for the messages before it, in order. *)
Lemma DeconstructContents_walk c n t :
  contents_tree c n t ->
  forall enclosing f w,
    handler_frame f ->
    processMessage (packet w) = Some f ->
    first_failure (walk enclosing t) ≠ Some OscErrorNone
    /\ exists fuel0, forall fuel, fuel0 ≤ fuel ->
         DeconstructContents fuel (nearest enclosing) c n w =
           Some (Ok (verdict (walk enclosing t),
                     deliver f (discovered (walk enclosing t)) w)).
Proof.
  revert c n t.
  apply (contents_tree_mut
    (fun c n t =>
      forall enclosing f w,
        handler_frame f ->
        processMessage (packet w) = Some f ->
        first_failure (walk enclosing t) ≠ Some OscErrorNone
        /\ exists fuel0, forall fuel, fuel0 ≤ fuel ->
             DeconstructContents fuel (nearest enclosing) c n w =
               Some (Ok (verdict (walk enclosing t),
                         deliver f (discovered (walk enclosing t)) w)))
    (fun tag b ts =>
      forall enclosing f w,
        handler_frame f ->
        processMessage (packet w) = Some f ->
        let evs := flat_map (walk (tag :: enclosing)) ts in
        first_failure evs ≠ Some OscErrorNone
        /\ exists fuel0, forall fuelR fuelL, fuel0 ≤ fuelR -> fuel0 ≤ fuelL ->
             bundle_loop (DeconstructContents fuelR) fuelL b w =
               Some (Ok (verdict evs, deliver f (discovered evs) w))));
    [intros c|intros c n m Hn Hm Hd|intros c n e m Hn Hm Hd He
    |intros c n e b Hn Hm Hb Hi He
    |intros c n b ts Hn Hm Hb Hi Hts IH|intros c n Hn Hm Hb
    |intros tag b Hav|intros tag b e el b' Hav Hg He
    |intros tag b el b' t ts Hav Hg Htag Ht IHt Hts IHts];
    intros enclosing f w Hframe Hf; simpl.
  - split; [done|]. exists 1. intros [|fuel] ?; [lia|]. done.
  - split; [done|]. exists 1. intros [|fuel] ?; [lia|].
    rewrite DeconstructContents_S, decide_False, Hm, Hd by done. simpl.
    unfold call_processMessage. rewrite Hf. done.
  - split; [congruence|]. exists 1. intros [|fuel] ?; [lia|].
    rewrite DeconstructContents_S, decide_False, Hm, Hd by done. simpl.
    by rewrite decide_True.
  - split; [congruence|]. exists 1. intros [|fuel] ?; [lia|].
    rewrite DeconstructContents_S, decide_False, Hm, Hb, Hi by done. simpl.
    by rewrite decide_True.
  - destruct (IH enclosing f w Hframe Hf) as [Hne [fuel0 Hrun]].
    split; [done|]. exists (S fuel0). intros [|fuel] ?; [lia|].
    rewrite DeconstructContents_S, decide_False, Hm, Hb, Hi by done. simpl.
    apply Hrun; lia.
  - split; [done|]. exists 1. intros [|fuel] ?; [lia|].
    rewrite DeconstructContents_S, decide_False, Hm, Hb by done. done.
  - split; [done|]. exists 1. intros fuelR [|fuelL] _ ?; [lia|].
    by apply bundle_loop_end.
  - split; [congruence|]. exists 1. intros fuelR [|fuelL] _ ?; [lia|].
    by apply (bundle_loop_get_error _ _ _ _ _ el b').
  - destruct (IHt (tag :: enclosing) f w Hframe Hf) as [Hne1 [fuel1 Hrun1]].
    set (evs1 := walk (tag :: enclosing) t) in *.
    set (w1 := deliver f (discovered evs1) w) in *.
    assert (processMessage (packet w1) = Some f) as Hf1.
    { unfold w1. by rewrite deliver_packet. }
    destruct (IHts enclosing f w1 Hframe Hf1) as [Hne2 [fuel2 Hrun2]].
    set (evs2 := flat_map (walk (tag :: enclosing)) ts) in *.
    rewrite first_failure_app, discovered_app. unfold verdict in *.
    rewrite first_failure_app.
    split; [by destruct (first_failure evs1)|].
    exists (S (fuel1 `max` fuel2)). intros fuelR [|fuelL] ? ?; [lia|].
    rewrite (bundle_loop_next _ _ _ _ _ _ Hav Hg).
    replace (Some (oscTimeTag b')) with (nearest (tag :: enclosing))
      by (by rewrite Htag).
    rewrite Hrun1 by lia. fold w1.
    destruct (first_failure evs1) as [e1|] eqn:E1; simpl.
    + rewrite decide_True by congruence. by rewrite app_nil_r.
    + rewrite deliver_app. fold w1. apply Hrun2; lia.
Qed.

(** C1. [OscPacketProcessMessages] on a packet whose contents are a tree is
    all-or-first-error.  When the depth-first, left-to-right walk of the
    tree meets its first failure [e] after the stretch [pre], the call
    returns [e] (which is an error), the callback has run exactly for the
    messages of [pre], in that order, and nothing of what the walk holds
    after the failure is dispatched or reported.  When the walk has no
    failure the call returns [OscErrorNone] and the callback has run for
    every message.  The bundle loop stops at the element that fails: with
    fuel for one iteration only it already returns that element's error, so
    no later element is fetched. *)
Theorem OscPacketProcessMessages_first_error w f t :
  processMessage (packet w) = Some f ->
  handler_frame f ->
  contents_tree (contents (packet w)) (size (packet w)) t ->
  (exists fuel0, forall fuel, fuel0 ≤ fuel ->
    (forall pre e post,
       walk [] t = pre ++ Failure e :: post ->
       Forall (fun ev => ¬ is_failure ev) pre ->
       e ≠ OscErrorNone
       /\ OscPacketProcessMessages fuel w
            = Some (Ok (e, deliver f (messages pre) w)))
    /\ (Forall (fun ev => ¬ is_failure ev) (walk [] t) ->
        OscPacketProcessMessages fuel w
          = Some (Ok (OscErrorNone, deliver f (messages (walk [] t)) w))))
  /\ (forall recurse b el b' e w1 w2,
        OscBundleIsBundleElementAvailable b = true ->
        OscBundleGetBundleElement b = (OscErrorNone, el, b') ->
        recurse (Some (oscTimeTag b')) (elementContents el)
                (size_t_of_int32 (elementSize el)) w1 = Some (Ok (e, w2)) ->
        e ≠ OscErrorNone ->
        bundle_loop recurse 1 b w1 = Some (Ok (e, w2))).
Proof.
  intros Hf Hframe Ht. split; cycle 1.
  { intros recurse b el b' e w1 w2 Hav Hg Hrec He.
    rewrite (bundle_loop_next _ _ _ _ _ _ Hav Hg), Hrec. by rewrite decide_True. }
  destruct (DeconstructContents_walk _ _ _ Ht [] f w Hframe Hf) as [Hne [fuel0 Hrun]].
  exists fuel0. intros fuel Hfuel.
  unfold OscPacketProcessMessages. rewrite Hf.
  change (@None OscTimeTag) with (nearest []). rewrite (Hrun fuel Hfuel).
  unfold verdict. split.
  - intros pre e post Hwalk Hpre. rewrite Hwalk in Hne |- *.
    destruct (no_failure_discovered pre Hpre) as [Hnone Hmsgs].
    rewrite first_failure_app, Hnone in Hne. simpl in Hne.
    rewrite first_failure_app, discovered_app, Hnone, Hmsgs. simpl.
    rewrite app_nil_r. split; [congruence|done].
  - intros Hall. destruct (no_failure_discovered _ Hall) as [-> ->]. done.
Qed.

(** C2. Every message that [OscPacketProcessMessages] meets before the first
    failure is handed to the callback once, in the order of the walk, with
    the time tag of the nearest bundle around it: the head of the list of
    enclosing time tags, innermost first.  A message that is the packet's
    contents is delivered with no time tag, a message in a bundle with that
    bundle's time tag, and a message in bundle [A] inside bundle [B] with
    the time tag of [A]. *)
Theorem OscPacketProcessMessages_nearest_time_tag w f t :
  processMessage (packet w) = Some f ->
  handler_frame f ->
  contents_tree (contents (packet w)) (size (packet w)) t ->
  exists fuel0, forall fuel, fuel0 ≤ fuel ->
    OscPacketProcessMessages fuel w
      = Some (Ok (verdict (walk [] t),
                  fold_left (fun w call => invoke f (head (fst call)) (snd call) w)
                            (discovered (walk [] t)) w))
    /\ (forall m, t = Message m ->
        OscPacketProcessMessages fuel w
          = Some (Ok (OscErrorNone, invoke f None m w)))
    /\ (forall A m, t = Bundle A [Message m] ->
        OscPacketProcessMessages fuel w
          = Some (Ok (OscErrorNone, invoke f (Some A) m w)))
    /\ (forall A B m, t = Bundle B [Bundle A [Message m]] ->
        OscPacketProcessMessages fuel w
          = Some (Ok (OscErrorNone, invoke f (Some A) m w))).
Proof.
  intros Hf Hframe Ht.
  destruct (DeconstructContents_walk _ _ _ Ht [] f w Hframe Hf) as [Hne [fuel0 Hrun]].
  exists fuel0. intros fuel Hfuel.
  assert (OscPacketProcessMessages fuel w
      = Some (Ok (verdict (walk [] t), deliver f (discovered (walk [] t)) w))) as H.
  { unfold OscPacketProcessMessages. rewrite Hf.
    change (@None OscTimeTag) with (nearest []). by apply Hrun. }
  split; [exact H|].
  split_and!; intros; subst t; exact H.
Qed.

(** *** The packet is only read *)

Lemma bundle_loop_frame recurse :
  (forall tt c n w e w',
     (forall f, processMessage (packet w) = Some f -> handler_frame f) ->
     recurse tt c n w = Some (Ok (e, w')) -> packet w' = packet w) ->
  forall fuel b w e w',
    (forall f, processMessage (packet w) = Some f -> handler_frame f) ->
    bundle_loop recurse fuel b w = Some (Ok (e, w')) -> packet w' = packet w.
Proof.
  intros Hrec. induction fuel as [|fuel IH]; intros b w e w' Hw; simpl; [done|].
  destruct (OscBundleIsBundleElementAvailable b); simpl; [|by intros [= _ <-]].
  destruct (OscBundleGetBundleElement b) as [[e1 el] b1].
  case_decide; [by intros [= _ <-]|].
  destruct (recurse _ _ _ w) as [[[e2 w2]|u]|] eqn:E2; [|done..].
  pose proof (Hrec _ _ _ _ _ _ Hw E2) as H2.
  case_decide; [by intros [= _ <-]|].
  intros H3. apply IH in H3; [congruence|]. by rewrite H2.
Qed.

Lemma DeconstructContents_frame fuel tt c n w e w' :
  (forall f, processMessage (packet w) = Some f -> handler_frame f) ->
  DeconstructContents fuel tt c n w = Some (Ok (e, w')) -> packet w' = packet w.
Proof.
  revert tt c n w e w'. induction fuel as [|fuel IH]; intros tt c n w e w' Hw; [done|].
  rewrite DeconstructContents_S.
  case_decide; [by intros [= _ <-]|].
  destruct (OSC_CONTENTS_IS_MESSAGE c) as [[|]|u]; [| |done].
  - destruct (OscMessageInitialiseFromCharArray c n) as [e1 m].
    case_decide; [by intros [= _ <-]|].
    unfold call_processMessage.
    destruct (processMessage (packet w)) as [f|] eqn:Ef; simpl; [|done].
    intros [= _ <-]. by apply Hw.
  - destruct (OSC_CONTENTS_IS_BUNDLE c) as [[|]|u]; [| by intros [= _ <-] | done].
    destruct (OscBundleInitialiseFromCharArray c n) as [e1 b].
    case_decide; [by intros [= _ <-]|].
    by apply bundle_loop_frame.
Qed.

(** With a callback attached that leaves the packet alone, no call goes
    through a null function pointer. *)
Lemma bundle_loop_no_null_call recurse :
  (forall tt c n w e w',
     (forall f, processMessage (packet w) = Some f -> handler_frame f) ->
     recurse tt c n w = Some (Ok (e, w')) -> packet w' = packet w) ->
  (forall tt c n w,
     (forall f, processMessage (packet w) = Some f -> handler_frame f) ->
     is_Some (processMessage (packet w)) ->
     recurse tt c n w ≠ Some (Undefined NullCall)) ->
  forall fuel b w,
    (forall f, processMessage (packet w) = Some f -> handler_frame f) ->
    is_Some (processMessage (packet w)) ->
    bundle_loop recurse fuel b w ≠ Some (Undefined NullCall).
Proof.
  intros Hframe Hrec. induction fuel as [|fuel IH]; intros b w Hw Hf; simpl; [done|].
  destruct (OscBundleIsBundleElementAvailable b); simpl; [|done].
  destruct (OscBundleGetBundleElement b) as [[e1 el] b1].
  case_decide; [done|].
  pose proof (Hrec (Some (oscTimeTag b1)) (elementContents el)
                (size_t_of_int32 (elementSize el)) w Hw Hf) as H2.
  destruct (recurse _ _ _ w) as [[[e2 w2]|u]|] eqn:E2; [|congruence|done].
  case_decide; [done|].
  pose proof (Hframe _ _ _ _ _ _ Hw E2) as Hp.
  apply IH; by rewrite Hp.
Qed.

Lemma DeconstructContents_no_null_call fuel tt c n w :
  (forall f, processMessage (packet w) = Some f -> handler_frame f) ->
  is_Some (processMessage (packet w)) ->
  DeconstructContents fuel tt c n w ≠ Some (Undefined NullCall).
Proof.
  revert tt c n w. induction fuel as [|fuel IH]; intros tt c n w Hw Hf; [done|].
  rewrite DeconstructContents_S.
  case_decide; [done|].
  destruct (OSC_CONTENTS_IS_MESSAGE c) as [[|]|u] eqn:Em;
    [| |by rewrite (classifier_undefined c u) by auto].
  - destruct (OscMessageInitialiseFromCharArray c n) as [e1 m].
    case_decide; [done|]. unfold call_processMessage.
    by destruct Hf as [f ->].
  - destruct (OSC_CONTENTS_IS_BUNDLE c) as [[|]|u] eqn:Eb;
      [|done|by rewrite (classifier_undefined c u) by auto].
    destruct (OscBundleInitialiseFromCharArray c n) as [e1 b].
    case_decide; [done|].
    apply bundle_loop_no_null_call; [|exact IH|done..].
    intros tt' c' n' w1 e' w2. apply DeconstructContents_frame.
Qed.

(** *** Termination *)

Lemma bundle_loop_mono (recurse recurse' : _ -> _ -> _ -> _ -> Deconstructed) :
  (forall tt c n w r, recurse tt c n w = Some r -> recurse' tt c n w = Some r) ->
  forall fuel fuel' b w r,
    fuel ≤ fuel' ->
    bundle_loop recurse fuel b w = Some r -> bundle_loop recurse' fuel' b w = Some r.
Proof.
  intros Hrec. induction fuel as [|fuel IH]; intros [|fuel'] b w r Hle;
    simpl; [done|done|lia|].
  destruct (OscBundleIsBundleElementAvailable b); simpl; [|done].
  destruct (OscBundleGetBundleElement b) as [[e1 el] b1].
  case_decide; [done|].
  destruct (recurse _ _ _ w) as [r2|] eqn:E2; [|done].
  rewrite (Hrec _ _ _ _ _ E2).
  destruct r2 as [[e2 w2]|u]; [|done].
  case_decide; [done|]. apply IH. lia.
Qed.

Lemma DeconstructContents_mono fuel fuel' tt c n w r :
  fuel ≤ fuel' ->
  DeconstructContents fuel tt c n w = Some r ->
  DeconstructContents fuel' tt c n w = Some r.
Proof.
  revert fuel' tt c n w r.
  induction fuel as [|fuel IH]; intros [|fuel'] tt c n w r Hle; [done|done|lia|].
  rewrite !DeconstructContents_S.
  case_decide; [done|].
  destruct (OSC_CONTENTS_IS_MESSAGE c) as [[|]|u]; [done| |done].
  destruct (OSC_CONTENTS_IS_BUNDLE c) as [[|]|u]; [|done..].
  destruct (OscBundleInitialiseFromCharArray c n) as [e1 b].
  case_decide; [done|].
  apply bundle_loop_mono; [|lia].
  intros tt' c' n' w' r'. apply IH. lia.
Qed.

Section Termination.
Variable remaining : OscBundle -> nat.
Hypothesis contract : cursor_contract remaining.

Lemma bundle_loop_returns (recurse : _ -> _ -> _ -> _ -> Deconstructed) bound :
  (forall tt c n w, n ≤ bound -> exists r, recurse tt c n w = Some r) ->
  forall fuel b w,
    remaining b ≤ bound ->
    remaining b < fuel ->
    exists r, bundle_loop recurse fuel b w = Some r.
Proof.
  intros Hrec. induction fuel as [|fuel IH]; intros b w Hb Hfuel; [lia|]. simpl.
  destruct (OscBundleIsBundleElementAvailable b) eqn:Hav; simpl; [|by eexists].
  destruct (OscBundleGetBundleElement b) as [[e1 el] b1] eqn:Hg.
  case_decide as He; [by eexists|].
  assert (e1 = OscErrorNone) as -> by (by destruct (decide (e1 = OscErrorNone))).
  destruct (element_within _ contract _ _ _ Hav Hg) as [Hel Hb1].
  destruct (Hrec (Some (oscTimeTag b1)) (elementContents el)
              (size_t_of_int32 (elementSize el)) w) as [r2 ->]; [lia|].
  destruct r2 as [[e2 w2]|u]; [|by eexists].
  case_decide; [by eexists|]. apply IH; lia.
Qed.

Lemma DeconstructContents_returns n :
  forall fuel tt c w, n < fuel -> exists r, DeconstructContents fuel tt c n w = Some r.
Proof.
  induction n as [n IH] using lt_wf_ind. intros [|fuel] tt c w Hfuel; [lia|].
  rewrite DeconstructContents_S.
  case_decide; [by eexists|].
  destruct (OSC_CONTENTS_IS_MESSAGE c) as [[|]|u]; [| |by eexists].
  - destruct (OscMessageInitialiseFromCharArray c n) as [e1 m].
    case_decide; by eexists.
  - destruct (OSC_CONTENTS_IS_BUNDLE c) as [[|]|u]; [|by eexists..].
    destruct (OscBundleInitialiseFromCharArray c n) as [e1 b] eqn:Hi.
    case_decide as He; [by eexists|].
    assert (e1 = OscErrorNone) as -> by (by destruct (decide (e1 = OscErrorNone))).
    pose proof (bundle_within _ contract _ _ _ Hi) as Hb.
    apply (bundle_loop_returns _ (remaining b)); [|lia..].
    intros tt' c' n' w' Hn'. apply IH; lia.
Qed.

(** Every run with more fuel than the size of the span reaches the same
    result. *)
Lemma DeconstructContents_result tt c n w :
  exists r, forall fuel, n < fuel -> DeconstructContents fuel tt c n w = Some r.
Proof.
  destruct (DeconstructContents_returns n (S n) tt c w) as [r Hr]; [lia|].
  exists r. intros fuel Hfuel. apply (DeconstructContents_mono (S n)); [lia|done].
Qed.

End Termination.

(** *** Reads stay within the span *)
(** *** Reads stay within the span *)

Lemma bundle_loop_in_bounds recurse :
  elements_addressable ->
  (forall tt c n w, n ≤ length c -> recurse tt c n w ≠ Some (Undefined OutOfBounds)) ->
  forall fuel b w, bundle_loop recurse fuel b w ≠ Some (Undefined OutOfBounds).
Proof.
  intros Hel Hrec. induction fuel as [|fuel IH]; intros b w; simpl; [done|].
  destruct (OscBundleIsBundleElementAvailable b) eqn:Hav; simpl; [|done].
  destruct (OscBundleGetBundleElement b) as [[e1 el] b1] eqn:Hg.
  case_decide as He; [done|].
  assert (e1 = OscErrorNone) as -> by (by destruct (decide (e1 = OscErrorNone))).
  pose proof (Hrec (Some (oscTimeTag b1)) (elementContents el)
                (size_t_of_int32 (elementSize el)) w (Hel _ _ _ Hav Hg)) as H2.
  destruct (recurse _ _ _ w) as [[[e2 w2]|u]|]; [|congruence|done].
  case_decide; [done|]. apply IH.
Qed.

Lemma DeconstructContents_in_bounds fuel tt c n w :
  elements_addressable ->
  n ≤ length c ->
  DeconstructContents fuel tt c n w ≠ Some (Undefined OutOfBounds).
Proof.
  intros Hel. revert tt c n w.
  induction fuel as [|fuel IH]; intros tt c n w Hn; [done|].
  rewrite DeconstructContents_S.
  case_decide as Hz; [done|].
  destruct (classifier_reads c n Hz Hn) as (m & b & -> & ->).
  destruct m.
  - destruct (OscMessageInitialiseFromCharArray c n) as [e1 msg].
    case_decide; [done|]. unfold call_processMessage.
    by destruct (processMessage (packet w)).
  - destruct b; [|done].
    destruct (OscBundleInitialiseFromCharArray c n) as [e1 bundle].
    case_decide; [done|]. by apply bundle_loop_in_bounds.
Qed.

(** C8. The classifier is not applied to a span of size zero: with size
    zero [DeconstructContents] returns [OscErrorContentsEmpty] even for a
    pointer with no addressable byte, where reading the first byte would be
    out of bounds; and when the packet's size is within its buffer and
    every bundle element addresses as many bytes as its size says, no call
    of [OscPacketProcessMessages] or of [DeconstructContents] reads out of
    bounds. *)
Theorem DeconstructContents_reads_in_bounds fuel tt w :
  OSC_CONTENTS_IS_MESSAGE [] = Undefined OutOfBounds
  /\ DeconstructContents (S fuel) tt [] 0 w = Some (Ok (OscErrorContentsEmpty, w))
  /\ (elements_addressable ->
      (forall c n, n ≤ length c ->
         DeconstructContents fuel tt c n w ≠ Some (Undefined OutOfBounds))
      /\ (size (packet w) ≤ length (contents (packet w)) ->
          OscPacketProcessMessages fuel w ≠ Some (Undefined OutOfBounds))).
Proof.
  split; [done|]. split; [done|]. intros Hel. split.
  - intros c n Hn. by apply DeconstructContents_in_bounds.
  - intros Hn. unfold OscPacketProcessMessages.
    destruct (processMessage (packet w)); [|done].
    by apply DeconstructContents_in_bounds.
Qed.

(** *** Processing returns, and returns the packet as it was *)

Lemma OscPacketProcessMessages_returns (remaining : OscBundle -> nat) w :
  cursor_contract remaining ->
  elements_addressable ->
  size (packet w) ≤ length (contents (packet w)) ->
  (forall f, processMessage (packet w) = Some f -> handler_frame f) ->
  exists e w',
    (forall fuel, size (packet w) < fuel ->
       OscPacketProcessMessages fuel w = Some (Ok (e, w')))
    /\ packet w' = packet w.
Proof.
  intros Hcontract Hel Hsize Hw. unfold OscPacketProcessMessages.
  destruct (processMessage (packet w)) as [f|] eqn:Ef; [|by do 2 eexists].
  destruct (DeconstructContents_result remaining Hcontract None
              (contents (packet w)) (size (packet w)) w) as [r Hr].
  pose proof (Hr (S (size (packet w))) ltac:(lia)) as Hrun.
  destruct r as [[e w']|[|]].
  - exists e, w'. split; [done|].
    eapply DeconstructContents_frame; [|exact Hrun]. by rewrite Ef.
  - exfalso. eapply DeconstructContents_no_null_call; [| |exact Hrun]; by rewrite Ef.
  - exfalso. by eapply DeconstructContents_in_bounds; [| |exact Hrun].
Qed.

(** C6. When the bundle functions keep to their contract (a bundle hands
    out spans of its own bytes, each fetch leaving fewer), every call of
    [OscPacketProcessMessages] ends, for every packet and every buffer
    contents, and ends in one way: there is a result that every run with
    more fuel than the packet's size reaches, and the same holds for
    [DeconstructContents] on any span.  When moreover the spans address the
    bytes their sizes say and the callback leaves the packet alone, that
    result is a return with an error code. *)
Theorem OscPacketProcessMessages_terminates (remaining : OscBundle -> nat) w :
  cursor_contract remaining ->
  (exists r, forall fuel, size (packet w) < fuel ->
     OscPacketProcessMessages fuel w = Some r)
  /\ (forall tt c n, exists r, forall fuel, n < fuel ->
        DeconstructContents fuel tt c n w = Some r)
  /\ (elements_addressable ->
      size (packet w) ≤ length (contents (packet w)) ->
      (forall f, processMessage (packet w) = Some f -> handler_frame f) ->
      exists e w', forall fuel, size (packet w) < fuel ->
        OscPacketProcessMessages fuel w = Some (Ok (e, w'))).
Proof.
  intros Hcontract. split_and!.
  - unfold OscPacketProcessMessages.
    destruct (processMessage (packet w)); [|by eexists].
    by apply (DeconstructContents_result remaining).
  - intros tt c n. by apply (DeconstructContents_result remaining).
  - intros Hel Hsize Hw.
    destruct (OscPacketProcessMessages_returns remaining w) as (e & w' & H & _);
      [done..|]. by exists e, w'.
Qed.

(** C9. [OscPacketProcessMessages] leaves the packet as it found it, as
    long as the callback attached leaves the packet alone: every run that
    returns, with whatever error code, returns a world whose packet has the
    same buffer, size and callback; and when the bundle functions keep to
    their contract the run does return, with the packet unchanged. *)
Theorem OscPacketProcessMessages_frame w :
  (forall f, processMessage (packet w) = Some f -> handler_frame f) ->
  (forall fuel e w',
     OscPacketProcessMessages fuel w = Some (Ok (e, w')) ->
     packet w' = packet w
     /\ contents (packet w') = contents (packet w)
     /\ size (packet w') = size (packet w))
  /\ (forall remaining : OscBundle -> nat,
      cursor_contract remaining ->
      elements_addressable ->
      size (packet w) ≤ length (contents (packet w)) ->
      exists e w',
        (forall fuel, size (packet w) < fuel ->
           OscPacketProcessMessages fuel w = Some (Ok (e, w')))
        /\ contents (packet w') = contents (packet w)
        /\ size (packet w') = size (packet w)).
Proof.
  intros Hw. split.
  - intros fuel e w' Hrun. enough (packet w' = packet w) as -> by done.
    unfold OscPacketProcessMessages in Hrun.
    destruct (processMessage (packet w)) as [f|] eqn:Ef; [|by injection Hrun as _ <-].
    eapply DeconstructContents_frame; [|exact Hrun]. by rewrite Ef.
  - intros remaining Hcontract Hel Hsize.
    destruct (OscPacketProcessMessages_returns remaining w) as (e & w' & H & Hp);
      [done..|]. exists e, w'. by rewrite Hp.
Qed.

End DeconstructProperties.

(** ** The concrete library keeps to the contracts *)

Section WireProperties.
Import Wire.

Lemma wire_handler_frame (f : FunPtr) : handler_frame f.
Proof. by intros tt m w. Qed.

Lemma wire_get_element b el b' :
  get_element b = (OscErrorNone, el, b') ->
  (0 ≤ elementSize el)%Z
  /\ Z.to_nat (elementSize el) + 4 ≤ length (rest b)
  /\ elementContents el = take (Z.to_nat (elementSize el)) (drop 4 (rest b))
  /\ b' = mkCursor (timeTag b) (drop (4 + Z.to_nat (elementSize el)) (rest b)).
Proof.
  unfold get_element. repeat case_decide; try done.
  intros [= <- <-]. simpl. split_and!; [lia|lia|done|done].
Qed.

Lemma wire_size_t (i : Z) : (0 ≤ i)%Z -> size_t_of_int32 i ≤ Z.to_nat i.
Proof.
  intros Hi. unfold size_t_of_int32. simpl.
  apply Z2Nat.inj_le; [apply Z.mod_pos_bound; lia|lia|].
  apply Z.mod_le; lia.
Qed.

Lemma wire_cursor_contract : cursor_contract (fun b => length (rest b)).
Proof.
  split.
  - intros c n b. simpl. unfold decode_bundle. repeat case_decide; try done.
    intros [= <-]. simpl. rewrite length_drop, length_take. lia.
  - intros b el b' _ Hg. simpl in Hg.
    destruct (wire_get_element _ _ _ Hg) as (Hpos & Hlen & _ & ->). simpl.
    pose proof (wire_size_t _ Hpos). rewrite length_drop. lia.
Qed.

Lemma wire_elements_addressable : elements_addressable.
Proof.
  intros b el b' _ Hg. simpl in Hg.
  destruct (wire_get_element _ _ _ Hg) as (Hpos & Hlen & -> & _).
  pose proof (wire_size_t _ Hpos). rewrite length_take, length_drop. lia.
Qed.

(** The tree of the packet that holds bundle 3: [/a], the garbage, [/b]. *)
Lemma bundle_three_tree :
  contents_tree (contents (packet (world_of bundle_three)))
    (size (packet (world_of bundle_three)))
    (Bundle 3%Z [Message message_a; Malformed OscErrorInvalidContents;
                 Message message_b]).
Proof.
  eapply (@tree_bundle library _ _ (mkCursor 3 _)); [done|done|done|by vm_compute|].
  eapply elements_next; [done|by vm_compute|done| |].
  { by apply tree_message. }
  eapply elements_next; [done|by vm_compute|done| |].
  { by apply tree_invalid. }
  eapply elements_next; [done|by vm_compute|done| |].
  { by apply tree_message. }
  by apply elements_end.
Qed.

(** The tree of the packet that holds bundle 2: bundle 1 with [/a] in it. *)
Lemma bundle_B_tree :
  contents_tree (contents (packet (world_of bundle_B)))
    (size (packet (world_of bundle_B)))
    (Bundle 2%Z [Bundle 1%Z [Message message_a]]).
Proof.
  eapply (@tree_bundle library _ _ (mkCursor 2 _)); [done|done|done|by vm_compute|].
  eapply elements_next; [done|by vm_compute|done| |by apply elements_end].
  eapply (@tree_bundle library _ _ (mkCursor 1 _)); [done|done|done|by vm_compute|].
  eapply elements_next; [done|by vm_compute|done| |by apply elements_end].
  by apply tree_message.
Qed.

(** ** The theorems at work on concrete packets *)

Example run_message_a :
  OscPacketProcessMessages 1 (world_of message_a)
    = Some (Ok (OscErrorNone, mkWorld (packet_of message_a) [(None, message_a)])).
Proof. reflexivity. Qed.

Example run_bundle_B :
  OscPacketProcessMessages 4 (world_of bundle_B)
    = Some (Ok (OscErrorNone, mkWorld (packet_of bundle_B) [(Some 1%Z, message_a)])).
Proof. reflexivity. Qed.

Example run_bundle_three :
  OscPacketProcessMessages 3 (world_of bundle_three)
    = Some (Ok (OscErrorInvalidContents,
                mkWorld (packet_of bundle_three) [(Some 3%Z, message_a)])).
Proof. reflexivity. Qed.

Example run_bundle_hole :
  OscPacketProcessMessages 2 (world_of bundle_hole)
    = Some (Ok (OscErrorContentsEmpty, world_of bundle_hole)).
Proof. reflexivity. Qed.

(** The callback is read from the packet at each dispatch: after a callback
    that detaches itself, the next dispatch is a call through [NULL]. *)
Example run_unhook :
  @OscPacketProcessMessages library unhook 5 (mkWorld (packet_of bundle_two) 0)
    = Some (Undefined NullCall).
Proof. reflexivity. Qed.

Example initialise_at_capacity :
  exists p,
    OscPacketInitialiseFromCharArray (mkOscPacket (replicate 64 x01) 5 (Some 3))
      (replicate 70 x02) MAX_OSC_PACKET_SIZE = Ok (OscErrorNone, p)
    /\ size p = 64 /\ contents p = replicate 64 x02 /\ processMessage p = None.
Proof.
  eexists. unfold OscPacketInitialiseFromCharArray.
  rewrite decide_False by (simpl; lia).
  rewrite copy_loop_spec by (simpl; lia).
  split; [reflexivity|done].
Qed.

Example initialise_above_capacity :
  OscPacketInitialiseFromCharArray (mkOscPacket (replicate 64 x01) 5 (Some 3))
    (replicate 70 x02) (S MAX_OSC_PACKET_SIZE)
    = Ok (OscErrorPacketSizeTooLarge, mkOscPacket (replicate 64 x01) 0 (Some 3)).
Proof. reflexivity. Qed.

Example run_out_of_fuel :
  OscPacketProcessMessages 3 (world_of bundle_B) = None.
Proof. reflexivity. Qed.

Lemma OscPacketProcessMessages_first_error_witness :
  let w := world_of bundle_three in
  let t := Bundle 3%Z [Message message_a; Malformed OscErrorInvalidContents;
                       Message message_b] in
  processMessage (packet w) = Some 1
  /\ handler_frame 1
  /\ contents_tree (contents (packet w)) (size (packet w)) t
  /\ exists fuel0, forall fuel, fuel0 ≤ fuel ->
       (forall pre e post,
          walk [] t = pre ++ Failure e :: post ->
          Forall (fun ev => ¬ is_failure ev) pre ->
          e ≠ OscErrorNone
          /\ OscPacketProcessMessages fuel w
               = Some (Ok (e, deliver 1 (messages pre) w)))
       /\ (Forall (fun ev => ¬ is_failure ev) (walk [] t) ->
           OscPacketProcessMessages fuel w
             = Some (Ok (OscErrorNone, deliver 1 (messages (walk [] t)) w))).
Proof.
  intros w t.
  split; [reflexivity|]. split; [apply wire_handler_frame|].
  split; [apply bundle_three_tree|].
  apply (proj1 (OscPacketProcessMessages_first_error (Lib := library) w 1 t
                  eq_refl (wire_handler_frame 1) bundle_three_tree)).
Defined.

Lemma OscPacketProcessMessages_nearest_time_tag_witness :
  let w := world_of bundle_B in
  let t := Bundle 2%Z [Bundle 1%Z [Message message_a]] in
  processMessage (packet w) = Some 1
  /\ handler_frame 1
  /\ contents_tree (contents (packet w)) (size (packet w)) t
  /\ exists fuel0, forall fuel, fuel0 ≤ fuel ->
       OscPacketProcessMessages fuel w
         = Some (Ok (verdict (walk [] t),
                     fold_left (fun w call => invoke 1 (head (fst call)) (snd call) w)
                               (discovered (walk [] t)) w))
       /\ (forall m, t = Message m ->
           OscPacketProcessMessages fuel w
             = Some (Ok (OscErrorNone, invoke 1 None m w)))
       /\ (forall A m, t = Bundle A [Message m] ->
           OscPacketProcessMessages fuel w
             = Some (Ok (OscErrorNone, invoke 1 (Some A) m w)))
       /\ (forall A B m, t = Bundle B [Bundle A [Message m]] ->
           OscPacketProcessMessages fuel w
             = Some (Ok (OscErrorNone, invoke 1 (Some A) m w))).
Proof.
  intros w t.
  split; [reflexivity|]. split; [apply wire_handler_frame|].
  split; [apply bundle_B_tree|].
  apply (OscPacketProcessMessages_nearest_time_tag (Lib := library) w 1 t);
    [reflexivity|apply wire_handler_frame|apply bundle_B_tree].
Defined.

Lemma DeconstructContents_contents_empty_witness :
  let w := world_of bundle_hole in
  let b : OscBundle := mkCursor 4 (length_prefix x00 ++ length_prefix x08 ++ message_a) in
  let el := mkOscBundleElement [] 0 in
  let b' : OscBundle := mkCursor 4 (length_prefix x08 ++ message_a) in
  OscBundleIsBundleElementAvailable b = true
  /\ OscBundleGetBundleElement b = (OscErrorNone, el, b')
  /\ size_t_of_int32 (elementSize el) = 0
  /\ DeconstructContents 1 None [] 0 w = Some (Ok (OscErrorContentsEmpty, w))
  /\ bundle_loop (DeconstructContents 1) 1 b w = Some (Ok (OscErrorContentsEmpty, w)).
Proof.
  intros w b el b'.
  split; [reflexivity|]. split; [reflexivity|]. split; [reflexivity|].
  split.
  - apply (DeconstructContents_contents_empty 0 None [] w).
  - apply (proj2 (DeconstructContents_contents_empty 0 None [] w) 0 b el b');
      reflexivity.
Defined.

Lemma OscPacketProcessMessages_callback_undefined_witness :
  let w : World AppState := mkWorld (mkOscPacket [] 0 None) [] in
  processMessage (packet w) = None
  /\ OscPacketProcessMessages 0 w = Some (Ok (OscErrorCallbackFunctionUndefined, w)).
Proof.
  intros w. split; [reflexivity|].
  apply (OscPacketProcessMessages_callback_undefined 0 w). reflexivity.
Defined.

Lemma OscPacketInitialiseFromCharArray_spec_witness :
  let oscPacket := mkOscPacket (replicate 64 x01) 5 (Some 3) in
  length (contents oscPacket) = MAX_OSC_PACKET_SIZE
  /\ 8 ≤ length message_a
  /\ 8 ≤ MAX_OSC_PACKET_SIZE
  /\ exists p, OscPacketInitialiseFromCharArray oscPacket message_a 8
                 = Ok (OscErrorNone, p)
               /\ size p = 8
               /\ take 8 (contents p) = take 8 message_a
               /\ processMessage p = None.
Proof.
  intros oscPacket.
  split; [reflexivity|]. split; [simpl; lia|]. split; [simpl; lia|].
  apply (OscPacketInitialiseFromCharArray_spec oscPacket message_a 8);
    [reflexivity|simpl; lia|simpl; lia].
Defined.

Lemma OscPacketProcessMessages_terminates_witness :
  let w := world_of bundle_B in
  cursor_contract (Lib := library) (fun b : Cursor => length (rest b))
  /\ (exists r, forall fuel, size (packet w) < fuel ->
        OscPacketProcessMessages fuel w = Some r)
  /\ (forall tt c n, exists r, forall fuel, n < fuel ->
        DeconstructContents fuel tt c n w = Some r)
  /\ (elements_addressable ->
      size (packet w) ≤ length (contents (packet w)) ->
      (forall f, processMessage (packet w) = Some f -> handler_frame f) ->
      exists e w', forall fuel, size (packet w) < fuel ->
        OscPacketProcessMessages fuel w = Some (Ok (e, w'))).
Proof.
  intros w. split; [apply wire_cursor_contract|].
  apply (OscPacketProcessMessages_terminates (Lib := library)
           (fun b : Cursor => length (rest b)) w wire_cursor_contract).
Defined.

Lemma DeconstructContents_bundle_without_elements_witness :
  let w := world_of empty_bundle in
  let c := contents (packet w) in
  let b : OscBundle := mkCursor 7 [] in
  16 ≠ 0
  /\ OSC_CONTENTS_IS_BUNDLE c = Ok true
  /\ OscBundleInitialiseFromCharArray c 16 = (OscErrorNone, b)
  /\ OscBundleIsBundleElementAvailable b = false
  /\ DeconstructContents 2 None c 16 w = Some (Ok (OscErrorNone, w))
  /\ (contents (packet w) = c -> size (packet w) = 16 ->
      is_Some (processMessage (packet w)) ->
      OscPacketProcessMessages 2 w = Some (Ok (OscErrorNone, w))).
Proof.
  intros w c b.
  split; [lia|]. split; [reflexivity|]. split; [reflexivity|]. split; [reflexivity|].
  apply (DeconstructContents_bundle_without_elements 0 None c 16 b w);
    [lia|reflexivity|reflexivity|reflexivity].
Defined.

Lemma DeconstructContents_reads_in_bounds_witness :
  let w := world_of bundle_B in
  elements_addressable
  /\ size (packet w) ≤ length (contents (packet w))
  /\ OscPacketProcessMessages 5 w ≠ Some (Undefined OutOfBounds).
Proof.
  intros w. split; [apply wire_elements_addressable|]. split; [simpl; lia|].
  apply (proj2 (proj2 (DeconstructContents_reads_in_bounds 5 None w)));
    [apply wire_elements_addressable|simpl; lia].
Defined.

Lemma OscPacketProcessMessages_frame_witness :
  let w := world_of bundle_three in
  let w' := mkWorld (packet_of bundle_three) [(Some 3%Z, message_a)] in
  (forall f, processMessage (packet w) = Some f -> handler_frame f)
  /\ OscPacketProcessMessages 5 w = Some (Ok (OscErrorInvalidContents, w'))
  /\ packet w' = packet w
  /\ contents (packet w') = contents (packet w)
  /\ size (packet w') = size (packet w).
Proof.
  intros w w'.
  split; [intros f _; apply wire_handler_frame|]. split; [reflexivity|].
  apply (proj1 (OscPacketProcessMessages_frame w
                  (fun f _ => wire_handler_frame f))
           5 OscErrorInvalidContents w').
  reflexivity.
Defined.

Lemma OscPacketInitialiseFromContents_clears_callback_witness :
  let oscPacket := mkOscPacket (replicate 64 x01) 5 (Some 3) in
  exists e p,
    OscPacketInitialiseFromContents oscPacket ("x"%byte :: [x00; x00; x00]) = Ok (e, p)
    /\ processMessage p = None
    /\ ("x"%byte ≠ "/"%byte -> "x"%byte ≠ "#"%byte ->
        e = OscErrorInvalidContents
        /\ contents p = contents oscPacket /\ size p = size oscPacket).
Proof.
  intros oscPacket.
  apply (OscPacketInitialiseFromContents_clears_callback oscPacket "x"%byte [x00; x00; x00]).
Defined.

End WireProperties.

(** * Further properties *)

(** ** The classifier and the initialisers *)

Section MorePacketProperties.
Context `{Lib : OscLibrary} `{App : !Application}.

(** X1. The classifier looks at the first byte and at nothing else: a span
    is a message exactly when it starts with ['/'], a bundle exactly when
    it starts with ['#'], never both, and the answer is undefined exactly
    for a pointer with no addressable byte. *)
Theorem classifier_first_byte (oscContents : OscContents) :
  (OscContentsIsMessage oscContents = Ok true <-> head oscContents = Some "/"%byte)
  /\ (OscContentsIsBundle oscContents = Ok true <-> head oscContents = Some "#"%byte)
  /\ ¬ (OscContentsIsMessage oscContents = Ok true
        /\ OscContentsIsBundle oscContents = Ok true)
  /\ (OscContentsIsMessage oscContents = Undefined OutOfBounds <-> oscContents = [])
  /\ (OscContentsIsBundle oscContents = Undefined OutOfBounds <-> oscContents = [])
  /\ (forall c rest rest',
        OscContentsIsMessage (c :: rest) = OscContentsIsMessage (c :: rest')
        /\ OscContentsIsBundle (c :: rest) = OscContentsIsBundle (c :: rest')).
Proof.
  destruct oscContents as [|c r];
    cbv [OscContentsIsMessage OscContentsIsBundle deref mbind exec_bind head].
  - split_and!; try done; try (split; done). by intros [? _].
  - split_and!; try done.
    + split; [intros [= H%byte_dec_bl]; by subst|intros [= ->]; done].
    + split; [intros [= H%byte_dec_bl]; by subst|intros [= ->]; done].
    + intros [[= H1%byte_dec_bl] [= H2%byte_dec_bl]]. by subst.
Qed.

Lemma copy_loop_undefined (source : list byte) (sourceSize : nat) (oscPacket : OscPacket) u :
  copy_loop source sourceSize oscPacket = Undefined u -> u = OutOfBounds.
Proof.
  funelim (copy_loop source sourceSize oscPacket); intros Hu;
    solve [done | by inversion Hu | auto].
Qed.

Lemma copy_loop_defined (source : list byte) (sourceSize : nat) (oscPacket p : OscPacket) :
  copy_loop source sourceSize oscPacket = Ok p ->
  size oscPacket < sourceSize ->
  sourceSize ≤ length source /\ sourceSize ≤ length (contents oscPacket).
Proof.
  funelim (copy_loop source sourceSize oscPacket); intros Hok Hlt;
    try (exfalso; lia); try done.
  destruct (decide (S (size oscPacket) < sourceSize)) as [Hs|Hs].
  - match goal with IH : forall q, _ = Ok q -> _ |- _ =>
      destruct (IH _ Hok) as [H1 H2]; [simpl; lia|] end.
    simpl in H2. rewrite length_insert in H2. done.
  - match goal with Hc : _ !! _ = Some _ |- _ => apply lookup_lt_Some in Hc end.
    lia.
Qed.

Lemma OscPacketInitialiseFromCharArray_ok
    (oscPacket : OscPacket) (source : list byte) (sourceSize : nat) :
  sourceSize ≤ MAX_OSC_PACKET_SIZE ->
  sourceSize ≤ length source ->
  sourceSize ≤ length (contents oscPacket) ->
  OscPacketInitialiseFromCharArray oscPacket source sourceSize =
    Ok (OscErrorNone,
        mkOscPacket (take sourceSize source ++ drop sourceSize (contents oscPacket))
                    sourceSize None).
Proof.
  intros Hmax Hsrc Hbuf. unfold OscPacketInitialiseFromCharArray.
  rewrite decide_False by lia. rewrite copy_loop_spec by (simpl; lia). simpl.
  by rewrite Nat.sub_0_r, drop_0.
Qed.

Lemma OscPacketInitialiseFromCharArray_too_large
    (oscPacket : OscPacket) (source : list byte) (sourceSize : nat) :
  MAX_OSC_PACKET_SIZE < sourceSize ->
  OscPacketInitialiseFromCharArray oscPacket source sourceSize =
    Ok (OscErrorPacketSizeTooLarge,
        mkOscPacket (contents oscPacket) 0 (processMessage oscPacket)).
Proof. intros H. unfold OscPacketInitialiseFromCharArray. by rewrite decide_True. Qed.

(** X2. [OscPacketInitialise] empties the packet and detaches the callback
    without touching the buffer, and doing it twice changes nothing more.
    A packet that has only been initialised cannot be processed:
    [OscPacketProcessMessages] returns [OscErrorCallbackFunctionUndefined];
    once a callback is attached it returns [OscErrorContentsEmpty], the
    callback not being called, whatever bytes the buffer holds. *)
Theorem OscPacketInitialise_empty_packet (oscPacket : OscPacket) :
  contents (OscPacketInitialise oscPacket) = contents oscPacket
  /\ size (OscPacketInitialise oscPacket) = 0
  /\ processMessage (OscPacketInitialise oscPacket) = None
  /\ OscPacketInitialise (OscPacketInitialise oscPacket) = OscPacketInitialise oscPacket
  /\ (forall fuel (a : AppState),
        OscPacketProcessMessages fuel (mkWorld (OscPacketInitialise oscPacket) a)
          = Some (Ok (OscErrorCallbackFunctionUndefined,
                      mkWorld (OscPacketInitialise oscPacket) a)))
  /\ (forall fuel f (a : AppState),
        OscPacketProcessMessages (S fuel)
            (mkWorld (attach f (OscPacketInitialise oscPacket)) a)
          = Some (Ok (OscErrorContentsEmpty,
                      mkWorld (attach f (OscPacketInitialise oscPacket)) a))).
Proof. by split_and!. Qed.

(** X3. When [OscPacketInitialiseFromCharArray] refuses a source that is too
    large it has already set the size to 0 but it has not reached the line
    that clears the callback: the buffer and the callback are as they were.
    Processing the packet afterwards therefore reports an empty packet when
    a callback was attached before, and a missing callback otherwise. *)
Theorem OscPacketInitialiseFromCharArray_too_large_keeps_callback
    (oscPacket : OscPacket) (source : list byte) (sourceSize : nat) :
  MAX_OSC_PACKET_SIZE < sourceSize ->
  exists p,
    OscPacketInitialiseFromCharArray oscPacket source sourceSize
      = Ok (OscErrorPacketSizeTooLarge, p)
    /\ processMessage p = processMessage oscPacket
    /\ contents p = contents oscPacket
    /\ size p = 0
    /\ (forall fuel (a : AppState),
          OscPacketProcessMessages (S fuel) (mkWorld p a) =
            Some (Ok (match processMessage oscPacket with
                      | Some _ => OscErrorContentsEmpty
                      | None => OscErrorCallbackFunctionUndefined
                      end, mkWorld p a))).
Proof.
  intros H. eexists. split; [by apply OscPacketInitialiseFromCharArray_too_large|].
  split_and!; try done. intros fuel a.
  unfold OscPacketProcessMessages. simpl. by destruct (processMessage oscPacket).
Qed.

(** X4. Whatever [OscPacketInitialiseFromCharArray] returns, the packet it
    leaves keeps the capacity of the buffer, its size is within the
    capacity, and the bytes from index [size] on are the ones the buffer
    held before: on success the buffer is the source's first [sourceSize]
    bytes followed by the old bytes beyond them. *)
Theorem OscPacketInitialiseFromCharArray_buffer
    (oscPacket : OscPacket) (source : list byte) (sourceSize : nat) e p :
  length (contents oscPacket) = MAX_OSC_PACKET_SIZE ->
  OscPacketInitialiseFromCharArray oscPacket source sourceSize = Ok (e, p) ->
  length (contents p) = MAX_OSC_PACKET_SIZE
  /\ size p ≤ MAX_OSC_PACKET_SIZE
  /\ drop (size p) (contents p) = drop (size p) (contents oscPacket)
  /\ (e = OscErrorNone ->
      size p = sourceSize
      /\ contents p = take sourceSize source ++ drop sourceSize (contents oscPacket))
  /\ (e ≠ OscErrorNone -> e = OscErrorPacketSizeTooLarge /\ size p = 0).
Proof.
  intros Hcap Hrun.
  destruct (decide (MAX_OSC_PACKET_SIZE < sourceSize)) as [Hgt|Hle].
  - rewrite OscPacketInitialiseFromCharArray_too_large in Hrun by done.
    injection Hrun as <- <-. simpl. split_and!; try done; lia.
  - assert (sourceSize ≤ length source) as Hsrc.
    { destruct sourceSize as [|n]; [lia|].
      unfold OscPacketInitialiseFromCharArray in Hrun.
      rewrite decide_False in Hrun by done.
      destruct (copy_loop _ _ _) as [q|u] eqn:Hq; [|done].
      apply copy_loop_defined in Hq; simpl in *; lia. }
    rewrite OscPacketInitialiseFromCharArray_ok in Hrun by lia.
    injection Hrun as <- <-. simpl.
    assert (length (take sourceSize source) = sourceSize) as Htake
      by (rewrite length_take; lia).
    split_and!; try done; try lia.
    + rewrite length_app, length_drop, Htake. lia.
    + by rewrite drop_app_length'.
Qed.

(** X5. [OscPacketInitialiseFromCharArray] on a packet with the capacity
    [MAX_OSC_PACKET_SIZE] reads outside the source exactly when the size
    passes the capacity test and the source holds fewer bytes than
    [sourceSize]; in every other case it returns.  A source that is too
    large is refused before any byte of it is read. *)
Theorem OscPacketInitialiseFromCharArray_defined
    (oscPacket : OscPacket) (source : list byte) (sourceSize : nat) :
  length (contents oscPacket) = MAX_OSC_PACKET_SIZE ->
  (OscPacketInitialiseFromCharArray oscPacket source sourceSize = Undefined OutOfBounds
     <-> sourceSize ≤ MAX_OSC_PACKET_SIZE /\ length source < sourceSize)
  /\ ((exists r, OscPacketInitialiseFromCharArray oscPacket source sourceSize = Ok r)
     <-> MAX_OSC_PACKET_SIZE < sourceSize \/ sourceSize ≤ length source).
Proof.
  intros Hcap.
  destruct (decide (MAX_OSC_PACKET_SIZE < sourceSize)) as [Hgt|Hle].
  { rewrite OscPacketInitialiseFromCharArray_too_large by done.
    split; split; try done; try lia; eauto. }
  destruct (decide (sourceSize ≤ length source)) as [Hsrc|Hsrc].
  { rewrite OscPacketInitialiseFromCharArray_ok by lia.
    split; split; try done; try lia; eauto. }
  assert (OscPacketInitialiseFromCharArray oscPacket source sourceSize
            = Undefined OutOfBounds) as ->.
  { unfold OscPacketInitialiseFromCharArray. rewrite decide_False by done.
    destruct (copy_loop _ _ _) as [q|u] eqn:Hq; simpl.
    - apply copy_loop_defined in Hq; simpl in *; lia.
    - by rewrite (copy_loop_undefined _ _ _ _ Hq). }
  split; split; try done; try lia. by intros [r Hr].
Qed.

End MorePacketProperties.

(** ** Filling a packet and processing it *)

Section PipelineProperties.
Context `{Lib : OscLibrary} `{App : !Application}.

Implicit Types (w : World AppState) (a : AppState).

Lemma DeconstructContents_message fuel tt c n w :
  n ≠ 0 ->
  OSC_CONTENTS_IS_MESSAGE c = Ok true ->
  DeconstructContents (S fuel) tt c n w =
    let r := OscMessageInitialiseFromCharArray c n in
    if decide (r.1 ≠ OscErrorNone) then Some (Ok (r.1, w)) else
    Some (w ← call_processMessage tt r.2 w; Ok (OscErrorNone, w)).
Proof.
  intros Hn Hm. rewrite DeconstructContents_S, decide_False, Hm by done.
  by destruct (OscMessageInitialiseFromCharArray c n).
Qed.

Lemma DeconstructContents_invalid fuel tt c n w :
  n ≠ 0 ->
  OSC_CONTENTS_IS_MESSAGE c = Ok false ->
  OSC_CONTENTS_IS_BUNDLE c = Ok false ->
  DeconstructContents (S fuel) tt c n w = Some (Ok (OscErrorInvalidContents, w)).
Proof. intros Hn Hm Hb. by rewrite DeconstructContents_S, decide_False, Hm, Hb. Qed.

Lemma classify_cons (c : byte) (rest : OscContents) :
  OSC_CONTENTS_IS_MESSAGE (c :: rest) = Ok (Byte.eqb c "/"%byte)
  /\ OSC_CONTENTS_IS_BUNDLE (c :: rest) = Ok (Byte.eqb c "#"%byte).
Proof. done. Qed.

Lemma byte_eqb_false (x y : byte) : x ≠ y -> Byte.eqb x y = false.
Proof.
  intros Hne. destruct (Byte.eqb x y) eqn:E; [|done].
  by apply byte_dec_bl in E.
Qed.

Lemma OscPacketProcessMessages_attach fuel f (p : OscPacket) a :
  OscPacketProcessMessages fuel (mkWorld (attach f p) a) =
    DeconstructContents fuel None (contents p) (size p) (mkWorld (attach f p) a).
Proof. done. Qed.

Lemma loaded_head (source old : list byte) (n : nat) (c : byte) :
  head source = Some c -> n ≠ 0 ->
  exists rest, take n source ++ drop n old = c :: rest.
Proof.
  destruct source as [|x s]; [done|]. intros [= ->] Hn.
  destruct n as [|n]; [done|]. simpl. by eexists.
Qed.

(** X6. A packet filled by [OscPacketInitialiseFromCharArray] has no
    callback, so processing it at once returns
    [OscErrorCallbackFunctionUndefined].  With a callback attached,
    processing a packet filled from zero bytes returns
    [OscErrorContentsEmpty], and processing one filled from bytes that start
    with neither ['/'] nor ['#'] returns [OscErrorInvalidContents]; in both
    cases the callback is not called and the message and bundle functions
    play no part. *)
Theorem load_then_process_rejects
    (oscPacket : OscPacket) (source : list byte) (sourceSize : nat) :
  length (contents oscPacket) = MAX_OSC_PACKET_SIZE ->
  sourceSize ≤ MAX_OSC_PACKET_SIZE ->
  sourceSize ≤ length source ->
  exists p,
    OscPacketInitialiseFromCharArray oscPacket source sourceSize = Ok (OscErrorNone, p)
    /\ forall fuel f a,
         OscPacketProcessMessages fuel (mkWorld p a)
           = Some (Ok (OscErrorCallbackFunctionUndefined, mkWorld p a))
         /\ (sourceSize = 0 ->
             OscPacketProcessMessages (S fuel) (mkWorld (attach f p) a)
               = Some (Ok (OscErrorContentsEmpty, mkWorld (attach f p) a)))
         /\ (forall c, head source = Some c -> sourceSize ≠ 0 ->
             c ≠ "/"%byte -> c ≠ "#"%byte ->
             OscPacketProcessMessages (S fuel) (mkWorld (attach f p) a)
               = Some (Ok (OscErrorInvalidContents, mkWorld (attach f p) a))).
Proof.
  intros Hcap Hmax Hsrc. eexists.
  split; [apply OscPacketInitialiseFromCharArray_ok; lia|].
  intros fuel f a. split_and!; [done|by intros ->|].
  intros c Hc Hn Hm Hb. rewrite OscPacketProcessMessages_attach. cbn [contents size].
  destruct (loaded_head source (contents oscPacket) sourceSize c Hc Hn) as [rest ->].
  destruct (classify_cons c rest) as [H1 H2].
  apply DeconstructContents_invalid; [done| |].
  - by rewrite H1, byte_eqb_false.
  - by rewrite H2, byte_eqb_false.
Qed.

(** X7. Filling a packet from bytes that start with ['/'], attaching a
    callback and processing the packet hands the buffer and the size to the
    message decoder and to nothing else: when the decoder accepts, the
    callback is called once, with no time tag and the decoded message, and
    [OscErrorNone] is returned; when it refuses, its error is returned as it
    is and the callback is not called.  One unit of fuel is enough. *)
Theorem load_then_process_message
    (oscPacket : OscPacket) (source : list byte) (sourceSize : nat) :
  length (contents oscPacket) = MAX_OSC_PACKET_SIZE ->
  sourceSize ≤ MAX_OSC_PACKET_SIZE ->
  sourceSize ≤ length source ->
  sourceSize ≠ 0 ->
  head source = Some "/"%byte ->
  exists p,
    OscPacketInitialiseFromCharArray oscPacket source sourceSize = Ok (OscErrorNone, p)
    /\ contents p = take sourceSize source ++ drop sourceSize (contents oscPacket)
    /\ forall fuel f a,
         let w := mkWorld (attach f p) a in
         let r := OscMessageInitialiseFromCharArray (contents p) sourceSize in
         (r.1 = OscErrorNone ->
          OscPacketProcessMessages (S fuel) w
            = Some (Ok (OscErrorNone, invoke f None r.2 w)))
         /\ (r.1 ≠ OscErrorNone ->
             OscPacketProcessMessages (S fuel) w = Some (Ok (r.1, w))).
Proof.
  intros Hcap Hmax Hsrc Hn Hc. eexists.
  split; [apply OscPacketInitialiseFromCharArray_ok; lia|]. split; [done|].
  intros fuel f a. cbv zeta. rewrite OscPacketProcessMessages_attach. cbn [contents size].
  destruct (loaded_head source (contents oscPacket) sourceSize _ Hc Hn) as [rest Hrest].
  rewrite DeconstructContents_message; [|done|by rewrite Hrest].
  cbv zeta. unfold call_processMessage. cbn [packet attach processMessage mbind exec_bind].
  split; intros He.
  - case_decide as Hd; [by destruct Hd|done].
  - by rewrite decide_True.
Qed.

(** X8. Serialising a message into a packet and processing that packet
    gives the message back to the callback.  When
    [OscPacketInitialiseFromContents] is given a structure that starts with
    ['/'] and the encoder succeeds, writing a non-empty span that itself
    starts with ['/'] and that the decoder accepts, then the packet has no
    callback yet, and once one is attached processing calls it exactly once,
    with no time tag and the message the decoder read from what the encoder
    wrote. *)
Theorem serialise_then_process_message
    (oscPacket : OscPacket) (rest : OscContents) n buffer m :
  OscMessageToCharArray ("/"%byte :: rest) (size oscPacket) (contents oscPacket)
      MAX_OSC_PACKET_SIZE = (OscErrorNone, n, buffer) ->
  n ≠ 0 ->
  head buffer = Some "/"%byte ->
  OscMessageInitialiseFromCharArray buffer n = (OscErrorNone, m) ->
  exists p,
    OscPacketInitialiseFromContents oscPacket ("/"%byte :: rest) = Ok (OscErrorNone, p)
    /\ contents p = buffer /\ size p = n
    /\ forall fuel f a,
         OscPacketProcessMessages fuel (mkWorld p a)
           = Some (Ok (OscErrorCallbackFunctionUndefined, mkWorld p a))
         /\ OscPacketProcessMessages (S fuel) (mkWorld (attach f p) a)
              = Some (Ok (OscErrorNone, invoke f None m (mkWorld (attach f p) a))).
Proof.
  intros Henc Hn Hb Hdec. eexists. split.
  { unfold OscPacketInitialiseFromContents.
    destruct (classify_cons "/" rest) as [-> _]. simpl. by rewrite Henc. }
  split; [done|]. split; [done|]. intros fuel f a. split; [done|].
  rewrite OscPacketProcessMessages_attach. cbn [contents size].
  destruct buffer as [|c b]; [done|]. injection Hb as ->.
  rewrite DeconstructContents_message; [|done|by destruct (classify_cons "/" b) as [-> _]].
  by rewrite Hdec.
Qed.

(** X9. [OscPacketProcessMessages] reports success only for a packet that
    has a callback, a size other than zero and a first byte that is ['/'] or
    ['#'].  When the first byte is ['/'] the message decoder accepted the
    buffer and the world returned is the one the callback made of it, called
    with no time tag; when it is ['#'] the bundle was initialised without
    error. *)
Theorem OscPacketProcessMessages_success fuel w w' :
  OscPacketProcessMessages fuel w = Some (Ok (OscErrorNone, w')) ->
  let p := packet w in
  is_Some (processMessage p)
  /\ size p ≠ 0
  /\ ((head (contents p) = Some "/"%byte
       /\ exists f m,
            processMessage p = Some f
            /\ OscMessageInitialiseFromCharArray (contents p) (size p) = (OscErrorNone, m)
            /\ w' = invoke f None m w)
      \/ (head (contents p) = Some "#"%byte
          /\ (OscBundleInitialiseFromCharArray (contents p) (size p)).1 = OscErrorNone)).
Proof.
  intros Hrun. cbv zeta. unfold OscPacketProcessMessages in Hrun. cbv zeta in Hrun.
  destruct (processMessage (packet w)) as [f|] eqn:Ef; [|done].
  destruct fuel as [|fuel]; [done|]. rewrite DeconstructContents_S in Hrun.
  case_decide as Hn; [done|].
  destruct (contents (packet w)) as [|c rest] eqn:Ec; [done|].
  destruct (classify_cons c rest) as [Hm Hb]. rewrite Hm, Hb in Hrun.
  split; [done|]. split; [done|].
  destruct (Byte.eqb c "/") eqn:Hc1.
  - left. apply byte_dec_bl in Hc1. subst c. split; [done|].
    destruct (OscMessageInitialiseFromCharArray _ _) as [e m].
    case_decide as He; [by injection Hrun|].
    unfold call_processMessage in Hrun. rewrite Ef in Hrun. simpl in Hrun.
    injection Hrun as <-. exists f, m. split_and!; try done.
    f_equal. by destruct (decide (e = OscErrorNone)).
  - destruct (Byte.eqb c "#") eqn:Hc2; [|done].
    right. apply byte_dec_bl in Hc2. subst c. split; [done|].
    destruct (OscBundleInitialiseFromCharArray _ _) as [e b]. simpl.
    case_decide as He; [by injection Hrun|].
    by destruct (decide (e = OscErrorNone)).
Qed.

End PipelineProperties.

(** ** Where errors and effects come from *)

Section OriginProperties.
Context `{Lib : OscLibrary} `{App : !Application}.

Implicit Types (w : World AppState).

Lemma bundle_loop_error_origin recurse (X : OscError) :
  X ≠ OscErrorNone ->
  (forall b, (OscBundleGetBundleElement b).1.1 ≠ X) ->
  (forall tt c n w w', recurse tt c n w ≠ Some (Ok (X, w'))) ->
  forall fuel b w w', bundle_loop recurse fuel b w ≠ Some (Ok (X, w')).
Proof.
  intros HX Hget Hrec. induction fuel as [|fuel IH]; intros b w w'; simpl; [done|].
  destruct (OscBundleIsBundleElementAvailable b); simpl; [|congruence].
  pose proof (Hget b) as Hb.
  destruct (OscBundleGetBundleElement b) as [[e1 el] b1]. simpl in Hb.
  case_decide; [congruence|].
  pose proof (Hrec (Some (oscTimeTag b1)) (elementContents el)
                (size_t_of_int32 (elementSize el)) w) as H2.
  destruct (recurse _ _ _ w) as [[[e2 w2]|u]|]; [|done..].
  case_decide; [|apply IH]. intros [= -> ->]. by apply (H2 w').
Qed.

(** X10. [DeconstructContents] makes up two error codes of its own,
    [OscErrorContentsEmpty] and [OscErrorInvalidContents]; every other
    error it returns was returned to it by the message decoder, the bundle
    initialiser or the element fetch.  So an error code that none of the
    three ever returns is never returned by [DeconstructContents], and,
    unless it is [OscErrorCallbackFunctionUndefined], never by
    [OscPacketProcessMessages]. *)
Theorem DeconstructContents_error_origin (X : OscError) :
  X ≠ OscErrorNone -> X ≠ OscErrorContentsEmpty -> X ≠ OscErrorInvalidContents ->
  (forall c n, (OscMessageInitialiseFromCharArray c n).1 ≠ X) ->
  (forall c n, (OscBundleInitialiseFromCharArray c n).1 ≠ X) ->
  (forall b, (OscBundleGetBundleElement b).1.1 ≠ X) ->
  (forall fuel tt c n w w', DeconstructContents fuel tt c n w ≠ Some (Ok (X, w')))
  /\ (X ≠ OscErrorCallbackFunctionUndefined ->
      forall fuel w w', OscPacketProcessMessages fuel w ≠ Some (Ok (X, w'))).
Proof.
  intros H0 H1 H2 Hdec Hini Hget.
  assert (forall fuel tt c n w w',
            DeconstructContents fuel tt c n w ≠ Some (Ok (X, w'))) as H.
  { induction fuel as [|fuel IH]; intros tt c n w w'; [done|].
    rewrite DeconstructContents_S.
    case_decide; [congruence|].
    destruct (OSC_CONTENTS_IS_MESSAGE c) as [[|]|u]; [| |done].
    - pose proof (Hdec c n) as Hd.
      destruct (OscMessageInitialiseFromCharArray c n) as [e1 m]. simpl in Hd.
      case_decide; [congruence|].
      destruct (call_processMessage tt m w); simpl; congruence.
    - destruct (OSC_CONTENTS_IS_BUNDLE c) as [[|]|u]; [|congruence|done].
      pose proof (Hini c n) as Hi.
      destruct (OscBundleInitialiseFromCharArray c n) as [e1 b]. simpl in Hi.
      case_decide; [congruence|].
      by apply bundle_loop_error_origin. }
  split; [exact H|]. intros H3 fuel w w'. unfold OscPacketProcessMessages.
  destruct (processMessage (packet w)); [apply H|congruence].
Qed.

Lemma bundle_loop_invariant recurse (P : World AppState -> Prop) :
  (forall tt c n w e w', P w -> recurse tt c n w = Some (Ok (e, w')) -> P w') ->
  forall fuel b w e w',
    P w -> bundle_loop recurse fuel b w = Some (Ok (e, w')) -> P w'.
Proof.
  intros Hrec. induction fuel as [|fuel IH]; intros b w e w' Hw; simpl; [done|].
  destruct (OscBundleIsBundleElementAvailable b); simpl; [|by intros [= _ <-]].
  destruct (OscBundleGetBundleElement b) as [[e1 el] b1].
  case_decide; [by intros [= _ <-]|].
  destruct (recurse _ _ _ w) as [[[e2 w2]|u]|] eqn:E2; [|done..].
  pose proof (Hrec _ _ _ _ _ _ Hw E2) as H2.
  case_decide; [by intros [= _ <-]|]. by apply IH.
Qed.

(** X11. Processing changes the world through the callback only: a property
    of the world that every call of a callback preserves still holds after
    [OscPacketProcessMessages] and after [DeconstructContents], whatever
    error they return.  In particular, with callbacks that leave the world
    as it is, the world returned is the world given. *)
Theorem OscPacketProcessMessages_invariant (P : World AppState -> Prop) :
  (forall f tt m w, P w -> P (invoke f tt m w)) ->
  (forall fuel tt c n w e w',
     P w -> DeconstructContents fuel tt c n w = Some (Ok (e, w')) -> P w')
  /\ (forall fuel w e w',
        P w -> OscPacketProcessMessages fuel w = Some (Ok (e, w')) -> P w').
Proof.
  intros Hinv.
  assert (forall fuel tt c n w e w',
     P w -> DeconstructContents fuel tt c n w = Some (Ok (e, w')) -> P w') as H.
  { induction fuel as [|fuel IH]; intros tt c n w e w' Hw; [done|].
    rewrite DeconstructContents_S.
    case_decide; [by intros [= _ <-]|].
    destruct (OSC_CONTENTS_IS_MESSAGE c) as [[|]|u]; [| |done].
    - destruct (OscMessageInitialiseFromCharArray c n) as [e1 m].
      case_decide; [by intros [= _ <-]|]. unfold call_processMessage.
      destruct (processMessage (packet w)); simpl; [|done].
      intros [= _ <-]. by apply Hinv.
    - destruct (OSC_CONTENTS_IS_BUNDLE c) as [[|]|u]; [|by intros [= _ <-]|done].
      destruct (OscBundleInitialiseFromCharArray c n) as [e1 b].
      case_decide; [by intros [= _ <-]|].
      by apply bundle_loop_invariant. }
  split; [exact H|]. intros fuel w e w' Hw. unfold OscPacketProcessMessages.
  destruct (processMessage (packet w)); [by apply H|by intros [= _ <-]].
Qed.


(** X13. The [int32] size of a bundle element becomes the [size_t] size of
    the recursive call.  Where [size_t] has at least 32 bits the conversion
    keeps a size that is not negative, turns a negative one into a size
    above [2^31], and gives zero only for zero: an element whose size is
    not zero, negative or not, passes the test for empty contents and is
    classified by its first byte, so that one starting with neither ['/']
    nor ['#'] ends the loop with [OscErrorInvalidContents]. *)
Theorem size_t_of_int32_nonzero (i : Z) :
  (32 ≤ size_t_bits)%Z ->
  (- 2 ^ 31 ≤ i < 2 ^ 31)%Z ->
  (0 ≤ i -> size_t_of_int32 i = Z.to_nat i)%Z
  /\ ((i < 0)%Z -> size_t_of_int32 i = Z.to_nat (2 ^ size_t_bits + i)
                  /\ (Z.to_nat (2 ^ 31) ≤ size_t_of_int32 i))
  /\ (size_t_of_int32 i = 0 <-> i = 0%Z)
  /\ (forall fuel n b w c rest b',
        i ≠ 0%Z ->
        OscBundleIsBundleElementAvailable b = true ->
        OscBundleGetBundleElement b = (OscErrorNone, mkOscBundleElement (c :: rest) i, b') ->
        c ≠ "/"%byte -> c ≠ "#"%byte ->
        bundle_loop (DeconstructContents (S fuel)) (S n) b w
          = Some (Ok (OscErrorInvalidContents, w))).
Proof.
  intros Hbits Hi.
  assert (2 ^ 32 ≤ 2 ^ size_t_bits)%Z as Hpow by (apply Z.pow_le_mono_r; lia).
  assert (0 ≤ i -> size_t_of_int32 i = Z.to_nat i)%Z as Hpos.
  { intros Hp. unfold size_t_of_int32. rewrite Z.mod_small; [done|lia]. }
  assert (i < 0 -> size_t_of_int32 i = Z.to_nat (2 ^ size_t_bits + i))%Z as Hneg.
  { intros Hn. unfold size_t_of_int32. f_equal. symmetry.
    apply (Z.mod_unique i (2 ^ size_t_bits) (-1)); lia. }
  assert (size_t_of_int32 i = 0 <-> i = 0%Z) as Hzero.
  { split; [|by intros ->; rewrite Hpos].
    destruct (decide (0 ≤ i)%Z) as [Hp|Hn].
    - rewrite Hpos by done. lia.
    - rewrite Hneg by lia. lia. }
  split; [exact Hpos|]. split; [|split; [exact Hzero|]].
  - intros Hn. split; [by apply Hneg|]. rewrite Hneg by done. lia.
  - intros fuel n b w c rest b' Hnz Hav Hg Hc1 Hc2.
    rewrite (bundle_loop_next _ _ _ _ _ _ Hav Hg). cbn [elementContents elementSize].
    rewrite DeconstructContents_S, decide_False by (by rewrite Hzero).
    cbv [OSC_CONTENTS_IS_MESSAGE OSC_CONTENTS_IS_BUNDLE OscContentsIsMessage
         OscContentsIsBundle deref mbind exec_bind].
    assert (Byte.eqb c "/" = false) as ->.
    { destruct (Byte.eqb c "/") eqn:E; [|done]. by apply byte_dec_bl in E. }
    assert (Byte.eqb c "#" = false) as ->.
    { destruct (Byte.eqb c "#") eqn:E; [|done]. by apply byte_dec_bl in E. }
    done.
Qed.

End OriginProperties.

(** ** Processing does not consume the packet *)

Section ReplayProperties.
Context `{Lib : OscLibrary} `{App : !Application}.

(** X14. Processing leaves the packet ready to be processed again: with a
    callback that leaves the packet alone, a second call of
    [OscPacketProcessMessages] on the world the first one returned gives
    the same error code and hands the same messages, with the same time
    tags and in the same order, to the callback once more. *)
Theorem OscPacketProcessMessages_replay (w : World AppState) f t :
  processMessage (packet w) = Some f ->
  handler_frame f ->
  contents_tree (contents (packet w)) (size (packet w)) t ->
  exists fuel0, forall fuel, fuel0 ≤ fuel ->
    OscPacketProcessMessages fuel w
      = Some (Ok (verdict (walk [] t), deliver f (discovered (walk [] t)) w))
    /\ OscPacketProcessMessages fuel (deliver f (discovered (walk [] t)) w)
         = Some (Ok (verdict (walk [] t),
                     deliver f (discovered (walk [] t) ++ discovered (walk [] t)) w)).
Proof.
  intros Hf Hframe Ht.
  set (w1 := deliver f (discovered (walk [] t)) w).
  assert (packet w1 = packet w) as Hp by (by apply deliver_packet).
  destruct (DeconstructContents_walk _ _ _ Ht [] f w Hframe Hf) as [_ [fuel0 Hrun0]].
  rewrite <- Hp in Ht, Hf.
  destruct (DeconstructContents_walk _ _ _ Ht [] f w1 Hframe Hf) as [_ [fuel1 Hrun1]].
  exists (fuel0 `max` fuel1). intros fuel Hfuel.
  unfold OscPacketProcessMessages. rewrite Hf. rewrite Hp in Hf |- *. rewrite Hf.
  change (@None OscTimeTag) with (nearest []). split.
  - apply Hrun0. lia.
  - rewrite deliver_app. fold w1. rewrite <- Hp. apply Hrun1. lia.
Qed.

End ReplayProperties.

(** ** The further properties at work on concrete packets *)

Section MoreWireProperties.
Import Wire.

Lemma wire_never_too_large :
  (forall c n, (OscMessageInitialiseFromCharArray c n).1 ≠ OscErrorPacketSizeTooLarge)
  /\ (forall c n, (OscBundleInitialiseFromCharArray c n).1 ≠ OscErrorPacketSizeTooLarge)
  /\ (forall b, (OscBundleGetBundleElement b).1.1 ≠ OscErrorPacketSizeTooLarge).
Proof.
  split_and!.
  - intros c n. simpl. unfold decode_message. by case_decide.
  - intros c n. simpl. unfold decode_bundle. by repeat case_decide.
  - intros b. simpl. unfold get_element. by repeat case_decide.
Qed.


Lemma OscPacketInitialiseFromCharArray_too_large_keeps_callback_witness :
  let oscPacket := mkOscPacket (replicate 64 x01) 5 (Some 3) in
  MAX_OSC_PACKET_SIZE < 65
  /\ exists p,
       OscPacketInitialiseFromCharArray oscPacket (replicate 70 x02) 65
         = Ok (OscErrorPacketSizeTooLarge, p)
       /\ processMessage p = processMessage oscPacket
       /\ contents p = contents oscPacket
       /\ size p = 0
       /\ (forall fuel (a : AppState),
             OscPacketProcessMessages (S fuel) (mkWorld p a) =
               Some (Ok (match processMessage oscPacket with
                         | Some _ => OscErrorContentsEmpty
                         | None => OscErrorCallbackFunctionUndefined
                         end, mkWorld p a))).
Proof.
  intros oscPacket. split; [simpl; lia|].
  apply (OscPacketInitialiseFromCharArray_too_large_keeps_callback
           oscPacket (replicate 70 x02) 65). simpl. lia.
Defined.

Lemma OscPacketInitialiseFromCharArray_buffer_witness :
  let oscPacket := mkOscPacket (replicate 64 x01) 5 (Some 3) in
  let p := mkOscPacket (message_a ++ replicate 56 x01) 8 None in
  length (contents oscPacket) = MAX_OSC_PACKET_SIZE
  /\ OscPacketInitialiseFromCharArray oscPacket message_a 8 = Ok (OscErrorNone, p)
  /\ length (contents p) = MAX_OSC_PACKET_SIZE
  /\ size p ≤ MAX_OSC_PACKET_SIZE
  /\ drop (size p) (contents p) = drop (size p) (contents oscPacket)
  /\ (OscErrorNone = OscErrorNone ->
      size p = 8
      /\ contents p = take 8 message_a ++ drop 8 (contents oscPacket))
  /\ (OscErrorNone ≠ OscErrorNone -> OscErrorNone = OscErrorPacketSizeTooLarge /\ size p = 0).
Proof.
  intros oscPacket p. split; [reflexivity|]. split; [vm_compute; reflexivity|].
  apply (OscPacketInitialiseFromCharArray_buffer oscPacket message_a 8 OscErrorNone p);
    [reflexivity|vm_compute; reflexivity].
Defined.

Lemma OscPacketInitialiseFromCharArray_defined_witness :
  let oscPacket := mkOscPacket (replicate 64 x01) 5 (Some 3) in
  length (contents oscPacket) = MAX_OSC_PACKET_SIZE
  /\ (OscPacketInitialiseFromCharArray oscPacket message_a 9 = Undefined OutOfBounds
        <-> 9 ≤ MAX_OSC_PACKET_SIZE /\ length message_a < 9)
  /\ ((exists r, OscPacketInitialiseFromCharArray oscPacket message_a 9 = Ok r)
        <-> MAX_OSC_PACKET_SIZE < 9 \/ 9 ≤ length message_a).
Proof.
  intros oscPacket. split; [reflexivity|].
  apply (OscPacketInitialiseFromCharArray_defined oscPacket message_a 9). reflexivity.
Defined.

Lemma load_then_process_rejects_witness :
  let oscPacket := mkOscPacket (replicate 64 x01) 5 (Some 3) in
  length (contents oscPacket) = MAX_OSC_PACKET_SIZE
  /\ 8 ≤ MAX_OSC_PACKET_SIZE
  /\ 8 ≤ length garbage
  /\ exists p,
       OscPacketInitialiseFromCharArray oscPacket garbage 8 = Ok (OscErrorNone, p)
       /\ forall fuel f (a : AppState),
            OscPacketProcessMessages fuel (mkWorld p a)
              = Some (Ok (OscErrorCallbackFunctionUndefined, mkWorld p a))
            /\ (8 = 0 ->
                OscPacketProcessMessages (S fuel) (mkWorld (attach f p) a)
                  = Some (Ok (OscErrorContentsEmpty, mkWorld (attach f p) a)))
            /\ (forall c, head garbage = Some c -> 8 ≠ 0 ->
                c ≠ "/"%byte -> c ≠ "#"%byte ->
                OscPacketProcessMessages (S fuel) (mkWorld (attach f p) a)
                  = Some (Ok (OscErrorInvalidContents, mkWorld (attach f p) a))).
Proof.
  intros oscPacket. split; [reflexivity|]. split; [simpl; lia|]. split; [simpl; lia|].
  apply (load_then_process_rejects oscPacket garbage 8);
    [reflexivity|simpl; lia|simpl; lia].
Defined.

Lemma load_then_process_message_witness :
  let oscPacket := mkOscPacket (replicate 64 x01) 5 (Some 3) in
  length (contents oscPacket) = MAX_OSC_PACKET_SIZE
  /\ 8 ≤ MAX_OSC_PACKET_SIZE
  /\ 8 ≤ length message_a
  /\ 8 ≠ 0
  /\ head message_a = Some "/"%byte
  /\ exists p,
       OscPacketInitialiseFromCharArray oscPacket message_a 8 = Ok (OscErrorNone, p)
       /\ contents p = take 8 message_a ++ drop 8 (contents oscPacket)
       /\ forall fuel f (a : AppState),
            let w := mkWorld (attach f p) a in
            let r := OscMessageInitialiseFromCharArray (contents p) 8 in
            (r.1 = OscErrorNone ->
             OscPacketProcessMessages (S fuel) w
               = Some (Ok (OscErrorNone, invoke f None r.2 w)))
            /\ (r.1 ≠ OscErrorNone ->
                OscPacketProcessMessages (S fuel) w = Some (Ok (r.1, w))).
Proof.
  intros oscPacket. split; [reflexivity|]. split; [simpl; lia|]. split; [simpl; lia|].
  split; [lia|]. split; [reflexivity|].
  apply (load_then_process_message oscPacket message_a 8);
    [reflexivity|simpl; lia|simpl; lia|lia|reflexivity].
Defined.

Lemma serialise_then_process_message_witness :
  let oscPacket := mkOscPacket (replicate 64 x01) 5 (Some 3) in
  let rest := ["a"; x00; x00; ","; x00; x00; x00]%byte in
  let buffer := message_a ++ replicate 56 x01 in
  OscMessageToCharArray ("/"%byte :: rest) (size oscPacket) (contents oscPacket)
      MAX_OSC_PACKET_SIZE = (OscErrorNone, 8, buffer)
  /\ 8 ≠ 0
  /\ head buffer = Some "/"%byte
  /\ OscMessageInitialiseFromCharArray buffer 8 = (OscErrorNone, message_a)
  /\ exists p,
       OscPacketInitialiseFromContents oscPacket ("/"%byte :: rest) = Ok (OscErrorNone, p)
       /\ contents p = buffer /\ size p = 8
       /\ forall fuel f (a : AppState),
            OscPacketProcessMessages fuel (mkWorld p a)
              = Some (Ok (OscErrorCallbackFunctionUndefined, mkWorld p a))
            /\ OscPacketProcessMessages (S fuel) (mkWorld (attach f p) a)
                 = Some (Ok (OscErrorNone,
                             invoke f None message_a (mkWorld (attach f p) a))).
Proof.
  intros oscPacket rest buffer.
  split; [reflexivity|]. split; [lia|]. split; [reflexivity|]. split; [reflexivity|].
  apply (serialise_then_process_message (Lib := library) oscPacket rest 8 buffer message_a);
    [reflexivity|lia|reflexivity|reflexivity].
Defined.

Lemma OscPacketProcessMessages_success_witness :
  let w := world_of message_a in
  let w' : World AppState := mkWorld (packet_of message_a) [(None, message_a)] in
  OscPacketProcessMessages 1 w = Some (Ok (OscErrorNone, w'))
  /\ is_Some (processMessage (packet w))
  /\ size (packet w) ≠ 0
  /\ ((head (contents (packet w)) = Some "/"%byte
       /\ exists f m,
            processMessage (packet w) = Some f
            /\ OscMessageInitialiseFromCharArray (contents (packet w)) (size (packet w))
                 = (OscErrorNone, m)
            /\ w' = invoke f None m w)
      \/ (head (contents (packet w)) = Some "#"%byte
          /\ (OscBundleInitialiseFromCharArray (contents (packet w)) (size (packet w))).1
               = OscErrorNone)).
Proof.
  intros w w'. split; [reflexivity|].
  apply (OscPacketProcessMessages_success 1 w w'). reflexivity.
Defined.

Lemma DeconstructContents_error_origin_witness :
  OscErrorPacketSizeTooLarge ≠ OscErrorNone
  /\ OscErrorPacketSizeTooLarge ≠ OscErrorContentsEmpty
  /\ OscErrorPacketSizeTooLarge ≠ OscErrorInvalidContents
  /\ (forall c n, (OscMessageInitialiseFromCharArray c n).1 ≠ OscErrorPacketSizeTooLarge)
  /\ (forall c n, (OscBundleInitialiseFromCharArray c n).1 ≠ OscErrorPacketSizeTooLarge)
  /\ (forall b, (OscBundleGetBundleElement b).1.1 ≠ OscErrorPacketSizeTooLarge)
  /\ (forall fuel tt c n (w w' : World AppState),
        DeconstructContents fuel tt c n w ≠ Some (Ok (OscErrorPacketSizeTooLarge, w')))
  /\ (OscErrorPacketSizeTooLarge ≠ OscErrorCallbackFunctionUndefined ->
      forall fuel (w w' : World AppState),
        OscPacketProcessMessages fuel w ≠ Some (Ok (OscErrorPacketSizeTooLarge, w'))).
Proof.
  split; [discriminate|]. split; [discriminate|]. split; [discriminate|].
  split; [apply wire_never_too_large|]. split; [apply wire_never_too_large|].
  split; [apply wire_never_too_large|].
  apply (DeconstructContents_error_origin (Lib := library) OscErrorPacketSizeTooLarge);
    [discriminate|discriminate|discriminate|apply wire_never_too_large..].
Defined.

Lemma OscPacketProcessMessages_invariant_witness :
  let P := fun w : World AppState => packet w = packet_of bundle_three in
  (forall f tt m w, P w -> P (invoke f tt m w))
  /\ (forall fuel tt c n w e w',
        P w -> DeconstructContents fuel tt c n w = Some (Ok (e, w')) -> P w')
  /\ (forall fuel w e w',
        P w -> OscPacketProcessMessages fuel w = Some (Ok (e, w')) -> P w').
Proof.
  intros P. split; [intros f tt m w Hw; exact Hw|].
  apply (OscPacketProcessMessages_invariant (Lib := library) P).
  intros f tt m w Hw. exact Hw.
Defined.


Lemma size_t_of_int32_nonzero_witness :
  (32 ≤ size_t_bits)%Z
  /\ (- 2 ^ 31 ≤ -4 < 2 ^ 31)%Z
  /\ (size_t_of_int32 (-4) = 0 <-> (-4)%Z = 0%Z)
  /\ ((-4 < 0)%Z -> size_t_of_int32 (-4) = Z.to_nat (2 ^ size_t_bits + -4)
                    /\ Z.to_nat (2 ^ 31) ≤ size_t_of_int32 (-4)).
Proof.
  split; [simpl; lia|]. split; [lia|].
  pose proof (size_t_of_int32_nonzero (Lib := library) (App := recorder) (-4)
                ltac:(simpl; lia) ltac:(lia)) as (_ & Hneg & Hzero & _).
  split; [exact Hzero|exact Hneg].
Defined.

Lemma OscPacketProcessMessages_replay_witness :
  let w := world_of bundle_three in
  let t := Bundle 3%Z [Message message_a; Malformed OscErrorInvalidContents;
                       Message message_b] in
  processMessage (packet w) = Some 1
  /\ handler_frame 1
  /\ contents_tree (contents (packet w)) (size (packet w)) t
  /\ exists fuel0, forall fuel, fuel0 ≤ fuel ->
       OscPacketProcessMessages fuel w
         = Some (Ok (verdict (walk [] t), deliver 1 (discovered (walk [] t)) w))
       /\ OscPacketProcessMessages fuel (deliver 1 (discovered (walk [] t)) w)
            = Some (Ok (verdict (walk [] t),
                        deliver 1 (discovered (walk [] t) ++ discovered (walk [] t)) w)).
Proof.
  intros w t. split; [reflexivity|]. split; [apply wire_handler_frame|].
  split; [apply bundle_three_tree|].
  apply (OscPacketProcessMessages_replay (Lib := library) w 1 t);
    [reflexivity|apply wire_handler_frame|apply bundle_three_tree].
Defined.

Example replay_bundle_three :
  OscPacketProcessMessages 3
      (mkWorld (packet_of bundle_three) [(Some 3%Z, message_a)])
    = Some (Ok (OscErrorInvalidContents,
                mkWorld (packet_of bundle_three)
                        [(Some 3%Z, message_a); (Some 3%Z, message_a)])).
Proof. reflexivity. Qed.

End MoreWireProperties.
